(** * Financial performance dashboard: the metrics engine and the
      cross-company aggregator of [src/data_processing.py]

    The Python module computes nine ratio series from three pandas
    DataFrames (income statement, balance sheet, cash flow) and collects
    the most recent row of every company into a comparison table.

    Embedding choices.
    - A float64 cell is a [num]: an exact rational ([Qc]) or one of the
      three IEEE special values [PInf], [NInf], [NaN].  Rounding, overflow
      and the sign of zero are not modelled; the special values follow
      IEEE 754 as numpy/pandas apply it ([x / 0] is a signed infinity for
      a non-zero [x], [0 / 0] is [NaN], [NaN] is absorbing).  [NaN] is
      pandas' marker of an undefined cell.
    - A [Series] is the list of its (label, value) pairs in storage order.
    - A [DataFrame] is the list of its column labels together with its rows
      (index label, cells) in storage order.  A statement has line-item
      names as index and fiscal periods as columns.  Labels are unique
      within an axis, as in the statements the ingestion layer delivers.
    - A fiscal period is an integer (any totally ordered label will do).
    - [try: ... except Exception as e: print(...); return pd.Series()] is
      kept as written: bodies run in a monad with exceptions and a stdout
      log, and [try_except] installs the handler.
    - [Series.pct_change] fills undefined cells forward before dividing in
      pandas 1.x and 2.x ([fill_method='pad']) and does not in pandas 3;
      the repository pins no version, so the default is a parameter. *)

From Stdlib Require Import QArith Qcanon Ascii.
From stdpp Require Import base numbers list strings sorting gmap pretty.

Local Open Scope Z_scope.

(** ** Numeric cells *)

Inductive num : Type :=
  | Fin (q : Qc)
  | PInf
  | NInf
  | NaN.

Global Instance num_eq_dec : EqDecision num.
Proof. solve_decision. Defined.

Definition Qc_sign (q : Qc) : comparison := Qccompare q (Q2Qc 0).

Definition num_opp (x : num) : num :=
  match x with
  | Fin q => Fin (Qcopp q)
  | PInf => NInf
  | NInf => PInf
  | NaN => NaN
  end.

Definition num_add (x y : num) : num :=
  match x, y with
  | NaN, _ | _, NaN => NaN
  | PInf, NInf | NInf, PInf => NaN
  | PInf, _ | _, PInf => PInf
  | NInf, _ | _, NInf => NInf
  | Fin a, Fin b => Fin (Qcplus a b)
  end.

Definition num_sub (x y : num) : num := num_add x (num_opp y).

(** An infinity carrying the sign [s]; [Eq] stands for a zero factor. *)
Definition signed_inf (s : comparison) : num :=
  match s with
  | Gt => PInf
  | Lt => NInf
  | Eq => NaN
  end.

Definition sign_mul (s t : comparison) : comparison :=
  match s, t with
  | Eq, _ | _, Eq => Eq
  | Gt, Gt | Lt, Lt => Gt
  | Gt, Lt | Lt, Gt => Lt
  end.

Definition num_mul (x y : num) : num :=
  match x, y with
  | NaN, _ | _, NaN => NaN
  | Fin a, Fin b => Fin (Qcmult a b)
  | Fin a, PInf | PInf, Fin a => signed_inf (Qc_sign a)
  | Fin a, NInf | NInf, Fin a => signed_inf (sign_mul Lt (Qc_sign a))
  | PInf, PInf | NInf, NInf => PInf
  | PInf, NInf | NInf, PInf => NInf
  end.

Definition num_div (x y : num) : num :=
  match x, y with
  | NaN, _ | _, NaN => NaN
  | Fin a, Fin b =>
      match Qc_sign b with
      | Eq => signed_inf (Qc_sign a)
      | _ => Fin (Qcdiv a b)
      end
  | Fin _, (PInf | NInf) => Fin (Q2Qc 0)
  | (PInf | NInf), (PInf | NInf) => NaN
  | PInf, Fin b => match Qc_sign b with Lt => NInf | _ => PInf end
  | NInf, Fin b => match Qc_sign b with Lt => PInf | _ => NInf end
  end.

(** [pd.isna] on a cell: only [NaN] is undefined, infinities are numbers. *)
Definition isna (x : num) : bool :=
  match x with NaN => true | _ => false end.

Definition is_inf (x : num) : bool :=
  match x with PInf | NInf => true | _ => false end.

(** Integer literals of the source ([100], [1]) as cells. *)
Definition num_of_Z (n : Z) : num := Fin (Q2Qc (inject_Z n)).

(** ** Series and DataFrames *)

(** A fiscal period label. *)
Abbreviation Period := Z (only parsing).

(** A series over fiscal periods. *)
Abbreviation Series := (list (Z * num)) (only parsing).

Record DataFrame (I C V : Type) : Type := mkDataFrame {
  columns : list C;
  rows : list (I * list V)
}.
Arguments mkDataFrame {I C V} columns rows.
Arguments columns {I C V} d.
Arguments rows {I C V} d.

Global Instance DataFrame_eq_dec {I C V} `{EqDecision I, EqDecision C, EqDecision V} :
  EqDecision (DataFrame I C V).
Proof. solve_decision. Defined.

(** A financial statement: line items down, fiscal periods across. *)
Definition Statement : Type := DataFrame string Period num.

(** The metrics table: fiscal periods down, metric names across. *)
Definition MetricsTable : Type := DataFrame Period string num.

(** [pd.DataFrame()] *)
Definition empty_frame {I C V} : DataFrame I C V := mkDataFrame [] [].

(** [pd.Series()] *)
Definition empty_series : Series := [].

Definition index {I C V} (df : DataFrame I C V) : list I := (rows df).*1.

(** [df.empty]: some axis has length zero. *)
Definition df_empty {I C V} (df : DataFrame I C V) : bool :=
  match columns df, rows df with
  | [], _ | _, [] => true
  | _, _ => false
  end.

(** [unique]: every element once, in order of first appearance. *)
Fixpoint unique {A} `{EqDecision A} (l : list A) : list A :=
  match l with
  | [] => []
  | x :: l' => x :: filter (λ y, y ≠ x) (unique l')
  end.

(** First binding of a key in an association list. *)
Fixpoint assoc {K V} `{EqDecision K} (k : K) (l : list (K * V)) : option V :=
  match l with
  | [] => None
  | (k', v) :: l' => if decide (k = k') then Some v else assoc k l'
  end.

(** The cell of a series at a label, [NaN] where the label is absent
    (what reindexing and alignment put there). *)
Definition get (s : Series) (p : Period) : num := default NaN (assoc p s).

(** ** Exceptions and the stdout log *)

Inductive exn : Type :=
  | KeyError (key : string)
  | IndexError (msg : string).

Global Instance exn_eq_dec : EqDecision exn.
Proof. solve_decision. Defined.

(** [str(e)] *)
Definition exn_str (e : exn) : string :=
  match e with
  | KeyError k => "'" +:+ k +:+ "'"
  | IndexError m => m
  end.

Inductive outcome (A : Type) : Type :=
  | Returns (a : A)
  | Raises (e : exn).
Arguments Returns {A} a.
Arguments Raises {A} e.

Global Instance outcome_eq_dec {A} `{EqDecision A} : EqDecision (outcome A).
Proof. solve_decision. Defined.

(** A computation: stdout so far ↦ outcome and stdout afterwards. *)
Definition Py (A : Type) : Type := list string → outcome A * list string.

Global Instance Py_ret : MRet Py := λ A a out, (Returns a, out).

Global Instance Py_bind : MBind Py := λ A B k m out,
  match m out with
  | (Returns a, out') => k a out'
  | (Raises e, out') => (Raises e, out')
  end.

(** A pandas call that may raise but neither reads nor writes stdout. *)
Definition lift {A} (o : outcome A) : Py A := λ out, (o, out).

Definition print (line : string) : Py unit := λ out, (Returns (), out ++ [line]).

(** [try: body except Exception as e: handler e] *)
Definition try_except {A} (body : Py A) (handler : exn → Py A) : Py A :=
  λ out, match body out with
         | (Returns a, out') => (Returns a, out')
         | (Raises e, out') => handler e out'
         end.

(** ** The pandas operations the engine calls *)

(** [df.loc[label]]: the row with that index label as a series over the
    columns; [KeyError] when no row has it (in particular on an empty
    frame). *)
Definition loc (df : Statement) (label : string) : outcome Series :=
  match assoc label (rows df) with
  | Some cells => Returns (zip (columns df) cells)
  | None => Raises (KeyError label)
  end.

(** [Series.shift(periods)]: values move by [periods] positions, labels
    stay; vacated positions hold [NaN]. *)
Definition shift_values (periods : Z) (vs : list num) : list num :=
  let n := length vs in
  if decide (0 ≤ periods)
  then take n (replicate (Z.to_nat periods) NaN ++ vs)
  else drop (Z.to_nat (- periods)) vs ++ replicate (Nat.min (Z.to_nat (- periods)) n) NaN.

Definition shift (periods : Z) (s : Series) : Series :=
  zip (s.*1) (shift_values periods (s.*2)).

(** [Series.ffill()]: an undefined cell takes the last defined value
    before it in storage order. *)
Fixpoint ffill_from (last : num) (vs : list num) : list num :=
  match vs with
  | [] => []
  | v :: vs' =>
      if isna v then last :: ffill_from last vs' else v :: ffill_from v vs'
  end.

Definition ffill (s : Series) : Series := zip (s.*1) (ffill_from NaN (s.*2)).

Inductive fill_method : Type := Pad | NoFill.

(** Label alignment of a binary operation on two series: equal indexes
    are kept as they are; otherwise the result runs over the sorted union
    of the labels and a label missing on one side contributes [NaN]. *)
Definition union_index (a b : list Period) : list Period :=
  merge_sort Z.le (unique (a ++ b)).

Definition binop (f : num → num → num) (a b : Series) : Series :=
  if decide (a.*1 = b.*1)
  then zip_with (λ x y, (x.1, f x.2 y.2)) a b
  else (λ p, (p, f (get a p) (get b p))) <$> union_index (a.*1) (b.*1).

(** Operation with a scalar on the right. *)
Definition scalar_op (f : num → num → num) (a : Series) (c : num) : Series :=
  (λ x, (x.1, f x.2 c)) <$> a.

(** The [fillna] step of [pct_change]. *)
Definition fill (fm : fill_method) (s : Series) : Series :=
  match fm with
  | Pad => ffill s
  | NoFill => s
  end.

(** [Series.pct_change(periods, fill_method)]:
    [data / data.shift(periods) - 1] on the (possibly filled) data. *)
Definition pct_change (periods : Z) (fm : fill_method) (s : Series) : Series :=
  let data := fill fm s in
  let shifted := shift periods data in
  scalar_op num_sub (binop num_div data shifted) (num_of_Z 1).

(** [pd.DataFrame(dict_of_series)]: one column per key, in key order; the
    index is the union of the series' labels and a series without a label
    has [NaN] there.  The order in which the union lists the labels is
    immaterial below: the one caller sorts the index straight away. *)
Definition union_indexes (idxs : list (list Period)) : list Period :=
  unique (concat idxs).

Definition frame_of_series (d : list (string * Series)) : MetricsTable :=
  let idx := union_indexes ((λ kv, kv.2.*1) <$> d) in
  mkDataFrame (d.*1) ((λ p, (p, (λ kv, get kv.2 p) <$> d)) <$> idx).

(** Row order of [sort_index]. *)
Definition index_le {V} (r1 r2 : Period * V) : Prop := r1.1 ≤ r2.1.
Definition index_ge {V} (r1 r2 : Period * V) : Prop := r2.1 ≤ r1.1.

Global Instance index_le_dec {V} : RelDecision (@index_le V).
Proof. intros r1 r2. unfold index_le. apply _. Defined.
Global Instance index_ge_dec {V} : RelDecision (@index_ge V).
Proof. intros r1 r2. unfold index_ge. apply _. Defined.

(** [df.sort_index(ascending=...)] *)
Definition sort_index {C V} (ascending : bool) (df : DataFrame Period C V)
  : DataFrame Period C V :=
  mkDataFrame (columns df)
    (if ascending then merge_sort index_le (rows df)
     else merge_sort index_ge (rows df)).

(** [df.iloc[i]]: the row at position [i] as a series over the columns. *)
Definition iloc {I C V} (df : DataFrame I C V) (i : nat) : outcome (list (C * V)) :=
  match rows df !! i with
  | Some r => Returns (zip (columns df) r.2)
  | None => Raises (IndexError "single positional indexer is out-of-bounds")
  end.

(** Values of the row dictionaries: metric cells and the company name. *)
Inductive pyval : Type :=
  | PNum (x : num)
  | PStr (s : string).

Global Instance pyval_eq_dec : EqDecision pyval.
Proof. solve_decision. Defined.

(** A Python dict, in insertion order. *)
Abbreviation dict := (list (string * pyval)) (only parsing).

(** [Series.to_dict()] *)
Definition to_dict (row : list (string * num)) : dict :=
  (λ kv, (kv.1, PNum kv.2)) <$> row.

(** [d[k] = v] *)
Fixpoint dict_set (k : string) (v : pyval) (d : dict) : dict :=
  match d with
  | [] => [(k, v)]
  | (k', v') :: d' =>
      if decide (k = k') then (k, v) :: d' else (k', v') :: dict_set k v d'
  end.

(** [pd.DataFrame(list_of_dicts)]: one row per dict under a range index;
    the columns are the keys in order of first appearance. *)
Definition frame_of_records (recs : list dict) : DataFrame nat string pyval :=
  let cols := unique (concat ((λ r : dict, r.*1) <$> recs)) in
  mkDataFrame cols
    (imap (λ i r, (i, (λ c, default (PNum NaN) (assoc c r)) <$> cols)) recs).

(** ** The metrics engine *)

Record FinancialMetricsCalculator : Type := mkCalculator {
  income_stmt : Statement;
  balance_sheet : Statement;
  cash_flow : Statement
}.

(** What [companies_data[ticker]] holds for the aggregator. *)
Record CompanyData : Type := mkCompanyData {
  data_income_statement : Statement;
  data_balance_sheet : Statement;
  data_cash_flow : Statement
}.

Section Engine.

(** The [fill_method] that [pct_change] uses when the caller gives none. *)
Variable default_fill_method : fill_method.

Definition calculate_revenue_growth (self : FinancialMetricsCalculator) : Py Series :=
try_except
  (revenue ← lift (loc (income_stmt self) "Total Revenue");
   let growth :=
     scalar_op num_mul (pct_change (-1) default_fill_method revenue) (num_of_Z 100) in
   mret growth)
  (λ e, print ("Error calculating revenue growth: " +:+ exn_str e);;
        mret empty_series).

Definition calculate_gross_margin (self : FinancialMetricsCalculator) : Py Series :=
try_except
  (revenue ← lift (loc (income_stmt self) "Total Revenue");
   gross_profit ← lift (loc (income_stmt self) "Gross Profit");
   let margin := scalar_op num_mul (binop num_div gross_profit revenue) (num_of_Z 100) in
   mret margin)
  (λ e, print ("Error calculating gross margin: " +:+ exn_str e);;
        mret empty_series).

Definition calculate_operating_margin (self : FinancialMetricsCalculator) : Py Series :=
try_except
  (revenue ← lift (loc (income_stmt self) "Total Revenue");
   operating_income ← lift (loc (income_stmt self) "Operating Income");
   let margin := scalar_op num_mul (binop num_div operating_income revenue) (num_of_Z 100) in
   mret margin)
  (λ e, print ("Error calculating operating margin: " +:+ exn_str e);;
        mret empty_series).

Definition calculate_net_margin (self : FinancialMetricsCalculator) : Py Series :=
try_except
  (revenue ← lift (loc (income_stmt self) "Total Revenue");
   net_income ← lift (loc (income_stmt self) "Net Income");
   let margin := scalar_op num_mul (binop num_div net_income revenue) (num_of_Z 100) in
   mret margin)
  (λ e, print ("Error calculating net margin: " +:+ exn_str e);;
        mret empty_series).

Definition calculate_free_cash_flow (self : FinancialMetricsCalculator) : Py Series :=
try_except
  (operating_cf ← lift (loc (cash_flow self) "Operating Cash Flow");
   capex ← lift (loc (cash_flow self) "Capital Expenditure");
   let fcf := binop num_add operating_cf capex in
   mret fcf)
  (λ e, print ("Error calculating free cash flow: " +:+ exn_str e);;
        mret empty_series).

Definition calculate_current_ratio (self : FinancialMetricsCalculator) : Py Series :=
try_except
  (current_assets ← lift (loc (balance_sheet self) "Current Assets");
   current_liabilities ← lift (loc (balance_sheet self) "Current Liabilities");
   let ratio := binop num_div current_assets current_liabilities in
   mret ratio)
  (λ e, print ("Error calculating current ratio: " +:+ exn_str e);;
        mret empty_series).

Definition calculate_debt_to_equity (self : FinancialMetricsCalculator) : Py Series :=
try_except
  (total_debt ← lift (loc (balance_sheet self) "Total Debt");
   stockholders_equity ← lift (loc (balance_sheet self) "Stockholders Equity");
   let ratio := binop num_div total_debt stockholders_equity in
   mret ratio)
  (λ e, print ("Error calculating debt-to-equity: " +:+ exn_str e);;
        mret empty_series).

Definition calculate_roe (self : FinancialMetricsCalculator) : Py Series :=
try_except
  (net_income ← lift (loc (income_stmt self) "Net Income");
   equity ← lift (loc (balance_sheet self) "Stockholders Equity");
   let roe := scalar_op num_mul (binop num_div net_income equity) (num_of_Z 100) in
   mret roe)
  (λ e, print ("Error calculating ROE: " +:+ exn_str e);;
        mret empty_series).

Definition calculate_roa (self : FinancialMetricsCalculator) : Py Series :=
try_except
  (net_income ← lift (loc (income_stmt self) "Net Income");
   total_assets ← lift (loc (balance_sheet self) "Total Assets");
   let roa := scalar_op num_mul (binop num_div net_income total_assets) (num_of_Z 100) in
   mret roa)
  (λ e, print ("Error calculating ROA: " +:+ exn_str e);;
        mret empty_series).

Definition calculate_all_metrics (self : FinancialMetricsCalculator) : Py MetricsTable :=
revenue_growth ← calculate_revenue_growth self;
gross_margin ← calculate_gross_margin self;
operating_margin ← calculate_operating_margin self;
net_margin ← calculate_net_margin self;
free_cash_flow ← calculate_free_cash_flow self;
current_ratio ← calculate_current_ratio self;
debt_to_equity ← calculate_debt_to_equity self;
roe ← calculate_roe self;
roa ← calculate_roa self;
let metrics :=
  [ ("Revenue Growth (%)", revenue_growth);
    ("Gross Margin (%)", gross_margin);
    ("Operating Margin (%)", operating_margin);
    ("Net Margin (%)", net_margin);
    ("Free Cash Flow", free_cash_flow);
    ("Current Ratio", current_ratio);
    ("Debt to Equity", debt_to_equity);
    ("ROE (%)", roe);
    ("ROA (%)", roa) ] in
let df := frame_of_series metrics in
let df := sort_index false df in
mret df.

(** ** The cross-company aggregator *)

(** The body of [for ticker, data in companies_data.items()], threading
  the list [comparison_data]. *)
Fixpoint comparison_loop (items : list (string * CompanyData))
  (comparison_data : list dict) : Py (list dict) :=
match items with
| [] => mret comparison_data
| (ticker, data) :: items' =>
    let calculator :=
      mkCalculator (data_income_statement data) (data_balance_sheet data)
                   (data_cash_flow data) in
    metrics ← calculate_all_metrics calculator;
    if negb (df_empty metrics) then
      row ← lift (iloc metrics 0);
      let latest := to_dict row in
      let latest := dict_set "Company" (PStr ticker) latest in
      comparison_loop items' (comparison_data ++ [latest])
    else comparison_loop items' comparison_data
end.

Definition create_comparison_dataframe (companies_data : list (string * CompanyData))
: Py (DataFrame nat string pyval) :=
comparison_data ← comparison_loop companies_data [];
mret (frame_of_records comparison_data).

End Engine.


(** ** Vocabulary for the properties *)

(** The nine metrics, in the column order of the metrics table. *)
Inductive Metric : Type :=
  | RevenueGrowth
  | GrossMargin
  | OperatingMargin
  | NetMargin
  | FreeCashFlow
  | CurrentRatio
  | DebtToEquity
  | ROE
  | ROA.

Global Instance Metric_eq_dec : EqDecision Metric.
Proof. solve_decision. Defined.

Definition all_metrics : list Metric :=
  [RevenueGrowth; GrossMargin; OperatingMargin; NetMargin; FreeCashFlow;
   CurrentRatio; DebtToEquity; ROE; ROA].

(** The key under which [calculate_all_metrics] files a metric. *)
Definition metric_name (m : Metric) : string :=
  match m with
  | RevenueGrowth => "Revenue Growth (%)"
  | GrossMargin => "Gross Margin (%)"
  | OperatingMargin => "Operating Margin (%)"
  | NetMargin => "Net Margin (%)"
  | FreeCashFlow => "Free Cash Flow"
  | CurrentRatio => "Current Ratio"
  | DebtToEquity => "Debt to Equity"
  | ROE => "ROE (%)"
  | ROA => "ROA (%)"
  end.

(** The method that computes a metric. *)
Definition calculate (fm : fill_method) (m : Metric)
  : FinancialMetricsCalculator → Py Series :=
  match m with
  | RevenueGrowth => calculate_revenue_growth fm
  | GrossMargin => calculate_gross_margin
  | OperatingMargin => calculate_operating_margin
  | NetMargin => calculate_net_margin
  | FreeCashFlow => calculate_free_cash_flow
  | CurrentRatio => calculate_current_ratio
  | DebtToEquity => calculate_debt_to_equity
  | ROE => calculate_roe
  | ROA => calculate_roa
  end.

Inductive StatementKind : Type := Income | Balance | CashFlow.

Definition statement (k : StatementKind) (self : FinancialMetricsCalculator) : Statement :=
  match k with
  | Income => income_stmt self
  | Balance => balance_sheet self
  | CashFlow => cash_flow self
  end.

(** The row behind the left operand of a metric's cell operation (the
    numerator of a ratio). *)
Definition left_row (m : Metric) : StatementKind * string :=
  match m with
  | RevenueGrowth => (Income, "Total Revenue")
  | GrossMargin => (Income, "Gross Profit")
  | OperatingMargin => (Income, "Operating Income")
  | NetMargin => (Income, "Net Income")
  | FreeCashFlow => (CashFlow, "Operating Cash Flow")
  | CurrentRatio => (Balance, "Current Assets")
  | DebtToEquity => (Balance, "Total Debt")
  | ROE => (Income, "Net Income")
  | ROA => (Income, "Net Income")
  end.

(** The row behind the right operand (the denominator of a ratio). *)
Definition right_row (m : Metric) : StatementKind * string :=
  match m with
  | RevenueGrowth => (Income, "Total Revenue")
  | GrossMargin => (Income, "Total Revenue")
  | OperatingMargin => (Income, "Total Revenue")
  | NetMargin => (Income, "Total Revenue")
  | FreeCashFlow => (CashFlow, "Capital Expenditure")
  | CurrentRatio => (Balance, "Current Liabilities")
  | DebtToEquity => (Balance, "Stockholders Equity")
  | ROE => (Balance, "Stockholders Equity")
  | ROA => (Balance, "Total Assets")
  end.

(** The line items a metric reads. *)
Definition required (m : Metric) : list (StatementKind * string) :=
  [left_row m; right_row m].

Definition read_row (r : StatementKind * string) (self : FinancialMetricsCalculator)
  : outcome Series :=
  loc (statement r.1 self) r.2.

(** The two series that meet in the cell operation.  Revenue growth divides
    the (filled) revenue row by itself shifted one position. *)
Definition left_operand (fm : fill_method) (m : Metric) (s : Series) : Series :=
  match m with
  | RevenueGrowth => fill fm s
  | _ => s
  end.

Definition right_operand (fm : fill_method) (m : Metric) (s : Series) : Series :=
  match m with
  | RevenueGrowth => shift (-1) (fill fm s)
  | _ => s
  end.

(** What a metric does with the two cells of one period. *)
Definition cell_op (m : Metric) (x y : num) : num :=
  match m with
  | RevenueGrowth => num_mul (num_sub (num_div x y) (num_of_Z 1)) (num_of_Z 100)
  | GrossMargin | OperatingMargin | NetMargin | ROE | ROA =>
      num_mul (num_div x y) (num_of_Z 100)
  | FreeCashFlow => num_add x y
  | CurrentRatio | DebtToEquity => num_div x y
  end.

(** Metrics that divide. *)
Definition has_denominator (m : Metric) : bool :=
  match m with
  | FreeCashFlow => false
  | _ => true
  end.

(** The value a computation returns when started on an empty stdout. *)
Definition result_of {A} (dflt : A) (c : Py A) : A :=
  match (c []).1 with
  | Returns a => a
  | Raises _ => dflt
  end.

(** What a computation prints. *)
Definition printed {A} (c : Py A) : list string := (c []).2.

Definition series_of (fm : fill_method) (m : Metric) (self : FinancialMetricsCalculator)
  : Series :=
  result_of empty_series (calculate fm m self).

Definition metrics_table (fm : fill_method) (self : FinancialMetricsCalculator)
  : MetricsTable :=
  result_of empty_frame (calculate_all_metrics fm self).

(** [df.at[p, name]] *)
Definition cell (df : MetricsTable) (p : Period) (name : string) : option num :=
  match assoc p (rows df) with
  | Some cells => assoc name (zip (columns df) cells)
  | None => None
  end.

(** The dict that [calculate_all_metrics] hands to [pd.DataFrame]. *)
Definition metric_series (fm : fill_method) (self : FinancialMetricsCalculator)
  : list (string * list (Z * num)) :=
  (λ m, (metric_name m, series_of fm m self)) <$> all_metrics.

(** Rows listed most recent period first, no period twice. *)
Definition newest_first (idx : list Period) : Prop :=
  StronglySorted (λ p q, q < p) idx.


(** The calculator that the aggregator builds for a company. *)
Definition calculator_of (data : CompanyData) : FinancialMetricsCalculator :=
  mkCalculator (data_income_statement data) (data_balance_sheet data)
               (data_cash_flow data).

(** The columns of a non-empty comparison table. *)
Definition comparison_columns : list string :=
  (metric_name <$> all_metrics) ++ ["Company"].

(** What the aggregator keeps of one company: the dict of the first row of
    its metrics table with the ticker under ["Company"]; nothing when
    the table has no rows. *)
Definition latest_record (fm : fill_method) (c : string * CompanyData)
  : option (list (string * pyval)) :=
  let metrics := metrics_table fm (calculator_of c.2) in
  match rows metrics with
  | [] => None
  | r :: _ => Some (dict_set "Company" (PStr c.1) (to_dict (zip (columns metrics) r.2)))
  end.

(** The companies that have at least one metrics row. *)
Definition has_metrics (fm : fill_method) (c : string * CompanyData) : Prop :=
  rows (metrics_table fm (calculator_of c.2)) ≠ [].

Global Instance has_metrics_dec fm c : Decision (has_metrics fm c).
Proof. unfold has_metrics. apply _. Defined.

(** The first row of a company's metrics table (a dummy when there is
    none). *)
Definition first_row (fm : fill_method) (c : string * CompanyData)
  : Period * list num :=
  default (0, []) (head (rows (metrics_table fm (calculator_of c.2)))).

(** A comparison row: the cells of the first metrics row, then the
    company identifier. *)
Definition comparison_row (fm : fill_method) (c : string * CompanyData)
  : list pyval :=
  (PNum <$> (first_row fm c).2) ++ [PStr c.1].

(** The comparison table as the design describes it: for each company, in
    order, whose metrics table is non-empty, its first row with the company
    identifier attached; the other companies contribute nothing. *)
Definition comparison_table (fm : fill_method) (cs : list (string * CompanyData))
  : DataFrame nat string pyval :=
  let kept := filter (has_metrics fm) cs in
  mkDataFrame (match kept with [] => [] | _ => comparison_columns end)
              (imap (λ i c, (i, comparison_row fm c)) kept).

(** ** Revenue growth in chronological terms *)







(** ** Sample statements *)

Definition qz (n : Z) : num := num_of_Z n.


(** The same statement as yfinance delivers it, newest column first. *)
Definition income_newest_first : Statement :=
  mkDataFrame [2023; 2022]
    [("Total Revenue", [qz 120; qz 100]); ("Gross Profit", [qz 54; qz 40]);
     ("Net Income", [qz 12; qz 10])].


Definition calc_newest_first : FinancialMetricsCalculator :=
  mkCalculator income_newest_first empty_frame empty_frame.


(** The growth series the code returns on [calc_newest_first]. *)
Definition growth_newest_first_stored : list (Z * num) :=
  [(2023, qz 20); (2022, NaN)].

(** ** Denominators *)

(** The reading of "a zero or undefined denominator gives an undefined
    cell": for every dividing metric whose rows are present and every
    period, if the cell the code divides by is [NaN] or zero, the result
    cell is [NaN]. *)
Definition undefined_on_bad_denominator (fm : fill_method)
    (self : FinancialMetricsCalculator) : Prop :=
  ∀ m a b p,
    has_denominator m = true →
    read_row (left_row m) self = Returns a →
    read_row (right_row m) self = Returns b →
    p ∈ b.*1 →
    get (right_operand fm m b) p = NaN ∨ get (right_operand fm m b) p = qz 0 →
    get (series_of fm m self) p = NaN.

(** Revenue 0 against a gross profit of 40 in 2023; revenue 100 in 2022. *)
Definition income_zero_revenue : Statement :=
  mkDataFrame [2023; 2022]
    [("Total Revenue", [qz 0; qz 100]); ("Gross Profit", [qz 40; qz 30])].

Definition calc_zero_revenue : FinancialMetricsCalculator :=
  mkCalculator income_zero_revenue empty_frame empty_frame.

(** A cash-flow statement with one period. *)
Definition cash_flow_sample : Statement :=
  mkDataFrame [2023]
    [("Operating Cash Flow", [qz 500]); ("Capital Expenditure", [qz (-120)])].

Definition calc_cash_flow : FinancialMetricsCalculator :=
  mkCalculator empty_frame empty_frame cash_flow_sample.

(** An income statement without a "Gross Profit" row. *)
Definition income_no_gross_profit : Statement :=
  mkDataFrame [2023; 2022] [("Total Revenue", [qz 120; qz 100])].

Definition calc_no_gross_profit : FinancialMetricsCalculator :=
  mkCalculator income_no_gross_profit empty_frame empty_frame.

(** Company A: all three statements; company B: no balance sheet;
    company C: nothing at all. *)
Definition balance_sample : Statement :=
  mkDataFrame [2023; 2022]
    [("Current Assets", [qz 300; qz 250]); ("Current Liabilities", [qz 150; qz 125]);
     ("Total Debt", [qz 80; qz 90]); ("Stockholders Equity", [qz 400; qz 360]);
     ("Total Assets", [qz 600; qz 500])].

Definition company_A : CompanyData :=
  mkCompanyData income_newest_first balance_sample cash_flow_sample.
Definition company_B : CompanyData :=
  mkCompanyData income_newest_first empty_frame cash_flow_sample.
Definition company_C : CompanyData :=
  mkCompanyData empty_frame empty_frame empty_frame.

Definition companies_sample : list (string * CompanyData) :=
  [("AAA", company_A); ("CCC", company_C); ("BBB", company_B)].

(** * The rest of the repository

    [src/utils.py], [src/data_extraction.py], [src/visualizations.py] and
    the loader of [app.py], over the definitions above. *)

(** ** [src/utils.py]: validation *)

(** [validate_financial_data(dataframe, required_fields)] *)
Definition validate_financial_data (dataframe : Statement)
    (required_fields : list string) : bool * list string :=
  if df_empty dataframe then (false, required_fields)
  else
    let existing_fields := index dataframe in
    let missing := filter (λ field, field ∉ existing_fields) required_fields in
    (bool_decide (length missing = 0%nat), missing).

(** ** What the error lines say *)

(** The rows of a metric in the order its method reads them: the margins
    look up the revenue first. *)
Definition read_order (m : Metric) : list (StatementKind * string) :=
  match m with
  | RevenueGrowth => [left_row m]
  | GrossMargin | OperatingMargin | NetMargin => [right_row m; left_row m]
  | _ => [left_row m; right_row m]
  end.

(** How the error line of a method calls its metric. *)
Definition metric_phrase (m : Metric) : string :=
  match m with
  | RevenueGrowth => "revenue growth"
  | GrossMargin => "gross margin"
  | OperatingMargin => "operating margin"
  | NetMargin => "net margin"
  | FreeCashFlow => "free cash flow"
  | CurrentRatio => "current ratio"
  | DebtToEquity => "debt-to-equity"
  | ROE => "ROE"
  | ROA => "ROA"
  end.

(** The line-item labels a statement has. *)
Definition has_row (self : FinancialMetricsCalculator) (r : StatementKind * string) : Prop :=
  r.2 ∈ index (statement r.1 self).

Global Instance has_row_dec self r : Decision (has_row self r).
Proof. unfold has_row. apply _. Defined.

(** The first row, in reading order, that the statements lack. *)
Definition first_missing (m : Metric) (self : FinancialMetricsCalculator)
  : option (StatementKind * string) :=
  head (filter (λ r, ¬ has_row self r) (read_order m)).

(** The lines a method prints: none, or one naming the first missing
    row. *)
Definition error_lines (m : Metric) (self : FinancialMetricsCalculator) : list string :=
  match first_missing m self with
  | Some r => ["Error calculating " +:+ metric_phrase m +:+ ": '" +:+ r.2 +:+ "'"]
  | None => []
  end.

(** [df.at[i, name]] on the comparison table. *)
Definition comparison_cell (df : DataFrame nat string pyval) (i : nat) (name : string)
  : option pyval :=
  match assoc i (rows df) with
  | Some cells => assoc name (zip (columns df) cells)
  | None => None
  end.

(** ** [src/visualizations.py] *)

(** A plotly trace: its legend name and the two coordinate lists. *)
Record Trace : Type := mkTrace {
  trace_name : string;
  trace_x : list Period;
  trace_y : list num
}.

Global Instance Trace_eq_dec : EqDecision Trace.
Proof. solve_decision. Defined.

(** A figure: the traces in the order they were added, and the title set
    by [update_layout] (the styling constants are left out). *)
Record Figure : Type := mkFigure {
  fig_traces : list Trace;
  fig_title : string
}.

Global Instance Figure_eq_dec : EqDecision Figure.
Proof. solve_decision. Defined.

(** [Series.sort_index()] *)
Definition series_sort_index (s : Series) : Series := merge_sort index_le s.

(** [d[k]] on a dict. *)
Definition getitem {V} (d : list (string * V)) (k : string) : outcome V :=
  match assoc k d with
  | Some v => Returns v
  | None => Raises (KeyError k)
  end.

(** [go.Scatter(x=s.index, y=s.values, name=name)] *)
Definition scatter (name : string) (s : Series) : Trace := mkTrace name (s.*1) (s.*2).

(** The loop of [plot_revenue_trend], threading the figure's traces. *)
Fixpoint plot_revenue_loop (companies_data : list (string * CompanyData))
    (tickers : list string) (fig : list Trace) : Py (list Trace) :=
  match tickers with
  | [] => mret fig
  | ticker :: tickers' =>
      fig' ← try_except
        (data ← lift (getitem companies_data ticker);
         let income_stmt := data_income_statement data in
         revenue ← lift (loc income_stmt "Total Revenue");
         let revenue := series_sort_index revenue in
         mret (fig ++ [scatter ticker revenue]))
        (λ e, print ("Error plotting revenue for " +:+ ticker +:+ ": " +:+ exn_str e);;
              mret fig);
      plot_revenue_loop companies_data tickers' fig'
  end.

Definition plot_revenue_trend (companies_data : list (string * CompanyData))
    (tickers : list string) : Py Figure :=
  traces ← plot_revenue_loop companies_data tickers [];
  mret (mkFigure traces "Revenue Trend Comparison").

(** The loop of [plot_fcf_trend]. *)
Fixpoint plot_fcf_loop (companies_data : list (string * CompanyData))
    (tickers : list string) (fig : list Trace) : Py (list Trace) :=
  match tickers with
  | [] => mret fig
  | ticker :: tickers' =>
      fig' ← try_except
        (data ← lift (getitem companies_data ticker);
         let cash_flow := data_cash_flow data in
         operating_cf ← lift (loc cash_flow "Operating Cash Flow");
         capex ← lift (loc cash_flow "Capital Expenditure");
         let fcf := binop num_add operating_cf capex in
         let fcf := series_sort_index fcf in
         mret (fig ++ [scatter ticker fcf]))
        (λ e, print ("Error plotting FCF for " +:+ ticker +:+ ": " +:+ exn_str e);;
              mret fig);
      plot_fcf_loop companies_data tickers' fig'
  end.

Definition plot_fcf_trend (companies_data : list (string * CompanyData))
    (tickers : list string) : Py Figure :=
  traces ← plot_fcf_loop companies_data tickers [];
  mret (mkFigure traces "Free Cash Flow Trend").


Section Plots.

Variable default_fill_method : fill_method.


End Plots.

(** The revenue row that [plot_revenue_trend] finds for a ticker, if
    any. *)
Definition revenue_row (companies_data : list (string * CompanyData))
    (ticker : string) : option (list (Z * num)) :=
  match assoc ticker companies_data with
  | Some data =>
      match loc (data_income_statement data) "Total Revenue" with
      | Returns revenue => Some revenue
      | Raises _ => None
      end
  | None => None
  end.

(** The free cash flow series that the engine computes for a ticker, when
    it computes one without reporting an error. *)
Definition engine_fcf (companies_data : list (string * CompanyData))
    (ticker : string) : option (list (Z * num)) :=
  match assoc ticker companies_data with
  | Some data =>
      match calculate_free_cash_flow (calculator_of data) [] with
      | (Returns fcf, []) => Some fcf
      | _ => None
      end
  | None => None
  end.

(** An income statement that stops in 2023 beside a balance sheet that
    already has 2024. *)
Definition balance_ahead : Statement :=
  mkDataFrame [2024; 2023]
    [("Stockholders Equity", [qz 500; qz 400]); ("Total Assets", [qz 700; qz 600])].

Definition calc_misaligned : FinancialMetricsCalculator :=
  mkCalculator income_newest_first balance_ahead empty_frame.

(** ** The boundary: exceptions of any class, files and the clock

    The functions below talk to the operating system (pickled cache files,
    the wall clock) and to yfinance.  The system is a record of the lines
    printed so far, the pickled objects by path, and the clock in
    microseconds; a pickled cache entry is the pair of its ['data'] and its
    ['timestamp'].  The store tracks regular files only: the results are
    about cache file names that are non-empty and have no directory part,
    for which [open] in the freshly made cache directory succeeds.
    yfinance is a pair of functions answering the attribute reads of a
    ticker object, each with a frame or an exception; building the ticker
    object itself sends no request and does not fail. *)

Inductive exception : Type := Exception (cls : string) (msg : string).

(** [str(e)] *)
Definition exception_str (e : exception) : string :=
  match e with Exception _ msg => msg end.


Inductive result (A : Type) : Type :=
  | Ok (a : A)
  | Err (e : exception).
Arguments Ok {A} a.
Arguments Err {A} e.

Record Sys (D : Type) : Type := mkSys {
  sys_stdout : list string;
  sys_files : gmap string (D * Z);
  sys_clock : Z
}.
Arguments mkSys {D} sys_stdout sys_files sys_clock.
Arguments sys_stdout {D} s.
Arguments sys_files {D} s.
Arguments sys_clock {D} s.

Definition IO (D A : Type) : Type := Sys D → result A * Sys D.

Global Instance IO_ret {D} : MRet (IO D) := λ A a w, (Ok a, w).

Global Instance IO_bind {D} : MBind (IO D) := λ A B k m w,
  match m w with
  | (Ok a, w') => k a w'
  | (Err e, w') => (Err e, w')
  end.

Definition io_print {D} (line : string) : IO D unit :=
  λ w, (Ok (), mkSys (sys_stdout w ++ [line]) (sys_files w) (sys_clock w)).





(** [try: body except Exception as e: handler e] *)
Definition io_try_except {D A} (body : IO D A) (handler : exception → IO D A) : IO D A :=
  λ w, match body w with
       | (Ok a, w') => (Ok a, w')
       | (Err e, w') => handler e w'
       end.

(** A call that may raise and touches nothing. *)
Definition io_lift {D A} (r : result A) : IO D A := λ w, (r, w).


(** *** Paths and durations *)









(** ** [src/utils.py]: the cache *)



(** ** [src/data_extraction.py] *)

(** [stock.info] *)
Abbreviation Info := (list (string * pyval)) (only parsing).

(** The dict of [get_all_statements]: the three statements and the company
    information. *)
Record FetchedData : Type := mkFetchedData {
  statements : CompanyData;
  company_info : Info
}.

Record FinancialDataExtractor : Type := mkExtractor {
  ticker : string
}.


Section Boundary.

Context {D : Type}.

(** yfinance: what reading a frame attribute ([income_stmt],
    [quarterly_income_stmt], ...) of the ticker's object gives, and what
    reading [info] gives. *)
Variable yf_frame : string → string → result Statement.
Variable yf_info : string → result (list (string * pyval)).

Definition get_income_statement (self : FinancialDataExtractor) (quarterly : bool)
  : IO D Statement :=
  io_try_except
    (if quarterly then io_lift (yf_frame (ticker self) "quarterly_income_stmt")
     else io_lift (yf_frame (ticker self) "income_stmt"))
    (λ e, io_print ("Error fetching income statement for " +:+ ticker self +:+ ": "
                    +:+ exception_str e);;
          mret empty_frame).

Definition get_balance_sheet (self : FinancialDataExtractor) (quarterly : bool)
  : IO D Statement :=
  io_try_except
    (if quarterly then io_lift (yf_frame (ticker self) "quarterly_balance_sheet")
     else io_lift (yf_frame (ticker self) "balance_sheet"))
    (λ e, io_print ("Error fetching balance sheet for " +:+ ticker self +:+ ": "
                    +:+ exception_str e);;
          mret empty_frame).

Definition get_cash_flow (self : FinancialDataExtractor) (quarterly : bool)
  : IO D Statement :=
  io_try_except
    (if quarterly then io_lift (yf_frame (ticker self) "quarterly_cashflow")
     else io_lift (yf_frame (ticker self) "cashflow"))
    (λ e, io_print ("Error fetching cash flow for " +:+ ticker self +:+ ": "
                    +:+ exception_str e);;
          mret empty_frame).

Definition get_company_info (self : FinancialDataExtractor)
  : IO D (list (string * pyval)) :=
  io_try_except
    (io_lift (yf_info (ticker self)))
    (λ e, io_print ("Error fetching company info for " +:+ ticker self +:+ ": "
                    +:+ exception_str e);;
          mret []).

Definition get_all_statements (self : FinancialDataExtractor) (quarterly : bool)
  : IO D FetchedData :=
  income_statement ← get_income_statement self quarterly;
  balance_sheet ← get_balance_sheet self quarterly;
  cash_flow ← get_cash_flow self quarterly;
  company_info ← get_company_info self;
  mret (mkFetchedData (mkCompanyData income_statement balance_sheet cash_flow)
                      company_info).



End Boundary.

(** ** [app.py]: the loader *)

(** The name of the cache file of a request. *)
Definition cache_file_name (tickers : list string) (quarterly : bool) : string :=
  "financial_data_" +:+ String.concat "_" tickers +:+ "_"
  +:+ (if quarterly then "Q" else "A") +:+ ".pkl".


(** The attribute of the ticker object that a getter reads. *)
Definition attr_name (k : StatementKind) (quarterly : bool) : string :=
  match k, quarterly with
  | Income, false => "income_stmt"
  | Income, true => "quarterly_income_stmt"
  | Balance, false => "balance_sheet"
  | Balance, true => "quarterly_balance_sheet"
  | CashFlow, false => "cashflow"
  | CashFlow, true => "quarterly_cashflow"
  end.

(** A statement of the fetched dict by kind. *)
Definition fetched_statement (k : StatementKind) (fd : FetchedData) : Statement :=
  match k with
  | Income => data_income_statement (statements fd)
  | Balance => data_balance_sheet (statements fd)
  | CashFlow => data_cash_flow (statements fd)
  end.

(** What the core receives for a failed request: an empty frame. *)
Definition frame_or_empty (r : result Statement) : Statement :=
  match r with
  | Ok df => df
  | Err _ => empty_frame
  end.

Definition is_err {A} (r : result A) : bool :=
  match r with Ok _ => false | Err _ => true end.

(** The requests of one ticker that fail. *)
Definition failed_requests
    (yf_frame : string → string → result Statement)
    (yf_info : string → result (list (string * pyval)))
    (t : string) (quarterly : bool) : nat :=
  (length (filter (λ k, is_err (yf_frame t (attr_name k quarterly)) = true)
                  [Income; Balance; CashFlow])
   + (if is_err (yf_info t) then 1 else 0))%nat.

(** The system after some more lines were printed. *)
Definition printed_more {D} (w : Sys D) (lines : list string) : Sys D :=
  mkSys (sys_stdout w ++ lines) (sys_files w) (sys_clock w).





(** What [get_all_statements] hands over for a ticker: every statement as
    yfinance gave it, or empty. *)
Definition delivered
    (yf_frame : string → string → result Statement)
    (yf_info : string → result (list (string * pyval)))
    (t : string) (quarterly : bool) : FetchedData :=
  mkFetchedData
    (mkCompanyData (frame_or_empty (yf_frame t (attr_name Income quarterly)))
                   (frame_or_empty (yf_frame t (attr_name Balance quarterly)))
                   (frame_or_empty (yf_frame t (attr_name CashFlow quarterly))))
    (match yf_info t with Ok info => info | Err _ => [] end).

(** ** [src/visualizations.py]: the health score *)

Global Instance result_ret : MRet result := λ A a, Ok a.

Global Instance result_bind : MBind result := λ A B k r,
  match r with
  | Ok a => k a
  | Err e => Err e
  end.

(** [x < y] on floats: false as soon as one side is [NaN]. *)
Definition num_ltb (x y : num) : bool :=
  match x, y with
  | NaN, _ | _, NaN => false
  | _, NInf => false
  | NInf, _ => true
  | PInf, _ => false
  | Fin _, PInf => true
  | Fin a, Fin b => bool_decide (a < b)%Qc
  end.

(** The builtin [min(a, b)]: [b] if [b < a], else [a]. *)
Definition py_min (a b : num) : num := if num_ltb b a then b else a.

(** The builtin [max(a, b)]: [b] if [b > a], else [a]. *)
Definition py_max (a b : num) : num := if num_ltb a b then b else a.

Definition categories : list string :=
  ["Gross Margin (%)"; "Operating Margin (%)"; "ROE (%)"; "ROA (%)"; "Current Ratio"].

(** The normalisation of one cell; comparing a string with a number is a
    [TypeError]. *)
Definition normalized (cat : string) (val : pyval) : result num :=
  match val with
  | PNum x =>
      if decide (cat = "Current Ratio")
      then Ok (py_min (num_mul x (num_of_Z 50)) (num_of_Z 100))
      else Ok (py_min (py_max x (num_of_Z 0)) (num_of_Z 100))
  | PStr _ =>
      if decide (cat = "Current Ratio")
      then Err (Exception "TypeError"
                  "'<' not supported between instances of 'int' and 'str'")
      else Err (Exception "TypeError"
                  "'>' not supported between instances of 'int' and 'str'")
  end.

(** [row[label]] for a row of a frame. *)
Definition row_getitem (row : list (string * pyval)) (label : string) : result pyval :=
  match assoc label row with
  | Some v => Ok v
  | None => Err (Exception "KeyError" ("'" +:+ label +:+ "'"))
  end.

(** The inner loop: the list [values] of one row. *)
Fixpoint health_values (cols : list string) (row : list (string * pyval))
    (cats : list string) (values : list num) : result (list num) :=
  match cats with
  | [] => Ok values
  | cat :: cats' =>
      if decide (cat ∈ cols) then
        val ← row_getitem row cat;
        v ← normalized cat val;
        health_values cols row cats' (values ++ [v])
      else health_values cols row cats' (values ++ [num_of_Z 0])
  end.

(** A [go.Scatterpolar] trace. *)
Record RadarTrace : Type := mkRadar {
  radar_r : list num;
  radar_theta : list string;
  radar_name : pyval
}.

(** The outer loop over [metrics_df.iterrows()]. *)
Fixpoint health_loop (cols : list string) (rws : list (nat * list pyval))
    (fig : list RadarTrace) : result (list RadarTrace) :=
  match rws with
  | [] => Ok fig
  | (idx, cells) :: rws' =>
      let row := zip cols cells in
      values ← health_values cols row categories [];
      name ← row_getitem row "Company";
      health_loop cols rws' (fig ++ [mkRadar values categories name])
  end.

(** [plot_financial_health_score(metrics_df)]: the traces of the figure. *)
Definition plot_financial_health_score (metrics_df : DataFrame nat string pyval)
  : result (list RadarTrace) :=
  health_loop (columns metrics_df) (rows metrics_df) [].

(** The range a normalised score can lie in: undefined, or a number in
    [lo, 100] where [lo] is 0 for the percentages; the current-ratio score
    has no lower bound. *)
Definition score_in_range (cat : string) (v : num) : Prop :=
  match v with
  | NaN => True
  | Fin q => (q ≤ Q2Qc (inject_Z 100))%Qc
             ∧ (cat ≠ "Current Ratio" → (Q2Qc (inject_Z 0) ≤ q)%Qc)
  | NInf => cat = "Current Ratio"
  | PInf => False
  end.

Global Instance exception_eq_dec : EqDecision exception.
Proof. solve_decision. Defined.

Global Instance result_eq_dec {A} `{EqDecision A} : EqDecision (result A).
Proof. solve_decision. Defined.

Global Instance RadarTrace_eq_dec : EqDecision RadarTrace.
Proof. solve_decision. Defined.

(** A comparison table with a negative current ratio and without the
    operating margin, ROE and ROA columns. *)
Definition health_sample : DataFrame nat string pyval :=
  mkDataFrame ["Gross Margin (%)"; "Current Ratio"; "Company"]
    [(0%nat, [PNum (qz 145); PNum (qz (-1)); PStr "AAA"])].
(** ** Arithmetic on cells *)

Lemma Qc_sign_eq (q : Qc) : Qc_sign q = Eq ↔ q = Q2Qc 0.
Proof. unfold Qc_sign. symmetry. apply Qceq_alt. Qed.


Lemma Qc_sign_100 : Qc_sign (Q2Qc (inject_Z 100)) = Gt.
Proof. reflexivity. Qed.

Lemma num_div_nan_r (x : num) : num_div x NaN = NaN.
Proof. by destruct x. Qed.

Lemma num_div_nan_l (y : num) : num_div NaN y = NaN.
Proof. done. Qed.

Lemma num_div_zero (x : Qc) :
  num_div (Fin x) (Fin (Q2Qc 0)) = signed_inf (Qc_sign x).
Proof. reflexivity. Qed.

Lemma signed_inf_scale (s : comparison) :
  num_mul (signed_inf s) (num_of_Z 100) = signed_inf s.
Proof. by destruct s. Qed.

Lemma signed_inf_pred (s : comparison) :
  num_sub (signed_inf s) (num_of_Z 1) = signed_inf s.
Proof. by destruct s. Qed.


(** ** Association lists and series *)

Section assoc.
Context {K V : Type} `{EqDecision K}.
Implicit Types (l : list (K * V)) (k : K).

Lemma assoc_None k l : assoc k l = None ↔ k ∉ l.*1.
Proof.
  induction l as [|[k' v] l IH]; simpl.
  - split; [intros _; apply not_elem_of_nil | done].
  - rewrite not_elem_of_cons. case_decide as E.
    + split; [done | intros [? _]; done].
    + rewrite IH. tauto.
Qed.

Lemma assoc_is_Some k l : is_Some (assoc k l) ↔ k ∈ l.*1.
Proof.
  rewrite <-not_eq_None_Some, assoc_None.
  destruct (decide (k ∈ l.*1)); naive_solver.
Qed.


Lemma assoc_cons_fresh k v l : k ∉ l.*1 → ∀ k' v', (k', v') ∈ l → assoc k' ((k, v) :: l) = assoc k' l.
Proof.
  intros Hk k' v' Hin. simpl. case_decide; [|done]. subst.
  destruct Hk. apply list_elem_of_fmap. by exists (k, v').
Qed.

Lemma assoc_NoDup k v l : NoDup l.*1 → (k, v) ∈ l → assoc k l = Some v.
Proof.
  induction l as [|[k' v'] l IH]; simpl; [by rewrite elem_of_nil|].
  rewrite NoDup_cons, elem_of_cons. intros [Hk Hl] [?|Hin]; simplify_eq.
  - by rewrite decide_True.
  - rewrite decide_False; [auto|]. intros ->. apply Hk.
    apply list_elem_of_fmap. by exists (k', v).
Qed.

Lemma assoc_lookup_NoDup (i : nat) k v l :
  NoDup l.*1 → l !! i = Some (k, v) → assoc k l = Some v.
Proof. intros ? ?. apply assoc_NoDup; [done|]. by eapply list_elem_of_lookup_2. Qed.

Lemma assoc_tabulate (g : K → V) (idx : list K) k :
  k ∈ idx → assoc k ((λ q, (q, g q)) <$> idx) = Some (g k).
Proof.
  induction idx as [|q idx IH]; simpl; [by rewrite elem_of_nil|].
  rewrite elem_of_cons. intros Hk. case_decide; [by subst|].
  destruct Hk; [done | auto].
Qed.

Lemma fst_tabulate (g : K → V) (idx : list K) :
  ((λ q, (q, g q)) <$> idx).*1 = idx.
Proof. rewrite <-list_fmap_compose. apply list_fmap_id. Qed.
End assoc.

Section unique.
Context {A : Type} `{EqDecision A}.
Implicit Types (l : list A) (x : A).

Lemma filter_all (P : A → Prop) `{∀ x, Decision (P x)} l :
  (∀ x, x ∈ l → P x) → filter P l = l.
Proof.
  induction l as [|y l IH]; intros HP; [done|].
  rewrite filter_cons_True by (apply HP; left).
  f_equal. apply IH. intros x Hx. apply HP. by right.
Qed.

Lemma filter_none (P : A → Prop) `{∀ x, Decision (P x)} l :
  (∀ x, x ∈ l → ¬ P x) → filter P l = [].
Proof.
  induction l as [|y l IH]; intros HP; [done|].
  rewrite filter_cons_False by (apply HP; left).
  apply IH. intros x Hx. apply HP. by right.
Qed.

Lemma elem_of_unique l x : x ∈ unique l ↔ x ∈ l.
Proof.
  induction l as [|y l IH]; simpl; [done|].
  rewrite !elem_of_cons, list_elem_of_filter, IH.
  destruct (decide (x = y)); tauto.
Qed.

Lemma NoDup_unique l : NoDup (unique l).
Proof.
  induction l as [|y l IH]; simpl; [constructor|].
  apply NoDup_cons. split; [|by apply NoDup_filter].
  rewrite list_elem_of_filter. by intros [? _].
Qed.

Lemma filter_ne_absent l x : x ∉ l → filter (λ y, y ≠ x) l = l.
Proof. intros Hx. apply filter_all. by intros y Hy ->. Qed.

Lemma unique_NoDup l : NoDup l → unique l = l.
Proof.
  induction 1 as [|x l Hx _ IH]; simpl; [done|].
  rewrite IH. f_equal. by apply filter_ne_absent.
Qed.

(** Labels already seen do not come back. *)
Lemma unique_app l l' :
  unique (l ++ l') = unique l ++ filter (λ y, y ∉ l) (unique l').
Proof.
  induction l as [|x l IH]; simpl.
  - symmetry. apply filter_all. intros y _. apply not_elem_of_nil.
  - f_equal. rewrite IH, filter_app. f_equal.
    rewrite list_filter_filter. apply list_filter_iff.
    intros y. by rewrite not_elem_of_cons.
Qed.

Lemma unique_app_absorb l l' :
  NoDup l → (∀ x, x ∈ l' → x ∈ l) → unique (l ++ l') = l.
Proof.
  intros Hl Hsub. rewrite unique_app, unique_NoDup by done.
  rewrite filter_none; [apply app_nil_r|].
  intros y Hy Hn. apply Hn, Hsub. by apply elem_of_unique.
Qed.
End unique.

Lemma get_absent (s : list (Z * num)) (p : Period) : p ∉ s.*1 → get s p = NaN.
Proof. intros H. unfold get. by apply assoc_None in H as ->. Qed.

Lemma get_assoc (s : Series) (p : Period) (v : num) :
  assoc p s = Some v → get s p = v.
Proof. unfold get. by intros ->. Qed.

Lemma assoc_get (s : Series) (p : Period) :
  p ∈ s.*1 → assoc p s = Some (get s p).
Proof. intros [v Hv]%assoc_is_Some. unfold get. by rewrite Hv. Qed.

Lemma get_present (s : Series) (p : Period) : get s p ≠ NaN → p ∈ s.*1.
Proof.
  intros H. destruct (decide (p ∈ s.*1)); [done|]. by rewrite get_absent in H.
Qed.

Lemma get_nil (p : Period) : get [] p = NaN.
Proof. done. Qed.

(** *** Scalar and binary operations *)

Lemma scalar_op_index (f : num → num → num) (a : Series) c : (scalar_op f a c).*1 = a.*1.
Proof. unfold scalar_op. by rewrite <-list_fmap_compose. Qed.


Lemma scalar_op_assoc (f : num → num → num) (a : Series) c p :
  assoc p (scalar_op f a c) = (λ v, f v c) <$> assoc p a.
Proof.
  induction a as [|[q v] a IH]; simpl; [done|]. case_decide; [done | apply IH].
Qed.

Lemma scalar_op_get (f : num → num → num) (a : Series) c p :
  p ∈ a.*1 → get (scalar_op f a c) p = f (get a p) c.
Proof.
  intros [v Hv]%assoc_is_Some. unfold get. by rewrite scalar_op_assoc, Hv.
Qed.

Lemma zip_with_same_index (f : num → num → num) (a b : Series) :
  a.*1 = b.*1 → (zip_with (λ x y, (x.1, f x.2 y.2)) a b).*1 = a.*1.
Proof.
  revert b. induction a as [|x a IH]; intros [|y b] Hab; simplify_eq/=; [done|].
  f_equal. by apply IH.
Qed.

Lemma zip_with_same_assoc (f : num → num → num) (a b : Series) p :
  a.*1 = b.*1 → p ∈ a.*1 →
  assoc p (zip_with (λ x y, (x.1, f x.2 y.2)) a b) = Some (f (get a p) (get b p)).
Proof.
  revert b. induction a as [|[q v] a IH]; intros [|[q' w] b] Hab Hp; simplify_eq/=.
  - by apply elem_of_nil in Hp.
  - unfold get. simpl. case_decide; [done|].
    apply elem_of_cons in Hp as [?|Hp]; [done|]. by apply IH.
Qed.

Lemma union_index_elem (a b : list Period) p :
  p ∈ union_index a b ↔ p ∈ a ∨ p ∈ b.
Proof.
  unfold union_index. rewrite merge_sort_Permutation, elem_of_unique.
  apply elem_of_app.
Qed.

Lemma binop_index_elem (f : num → num → num) (a b : Series) p :
  p ∈ (binop f a b).*1 ↔ p ∈ a.*1 ∨ p ∈ b.*1.
Proof.
  unfold binop. case_decide as E.
  - rewrite zip_with_same_index by done. rewrite <-E. tauto.
  - rewrite fst_tabulate. apply union_index_elem.
Qed.

(** Every cell of the result comes from the two cells under its own
    label. *)
Lemma binop_assoc (f : num → num → num) (a b : Series) p :
  p ∈ a.*1 ∨ p ∈ b.*1 → assoc p (binop f a b) = Some (f (get a p) (get b p)).
Proof.
  intros Hp. unfold binop. case_decide as E.
  - apply zip_with_same_assoc; [done|]. rewrite <-E in Hp. tauto.
  - apply (assoc_tabulate (λ q, f (get a q) (get b q))).
    by apply union_index_elem.
Qed.

Lemma binop_same_index (f : num → num → num) (a b : Series) :
  a.*1 = b.*1 → (binop f a b).*1 = a.*1.
Proof. intros E. unfold binop. rewrite decide_True by done. by apply zip_with_same_index. Qed.


(** *** Shifting and filling *)

Lemma shift_values_length (k : Z) (vs : list num) :
  length (shift_values k vs) = length vs.
Proof.
  unfold shift_values. case_decide.
  - rewrite length_take, length_app, length_replicate. lia.
  - rewrite length_app, length_drop, length_replicate. lia.
Qed.


Lemma shift_index (k : Z) (s : Series) : (shift k s).*1 = s.*1.
Proof.
  unfold shift. apply fst_zip.
  by rewrite shift_values_length, !length_fmap.
Qed.


Lemma ffill_from_length (last : num) (vs : list num) :
  length (ffill_from last vs) = length vs.
Proof.
  revert last. induction vs as [|v vs IH]; intros last; simpl; [done|].
  destruct (isna v); simpl; by rewrite IH.
Qed.


Lemma fill_index (fm : fill_method) (s : Series) : (fill fm s).*1 = s.*1.
Proof.
  destruct fm; [|done]. unfold fill, ffill. apply fst_zip.
  by rewrite ffill_from_length, !length_fmap.
Qed.




(** *** Percentage change *)

Lemma pct_change_index (k : Z) (fm : fill_method) (s : Series) :
  (pct_change k fm s).*1 = s.*1.
Proof.
  unfold pct_change. rewrite scalar_op_index, binop_same_index.
  - apply fill_index.
  - by rewrite shift_index.
Qed.



(** ** Running the metric methods *)

Lemma calculate_run (fm : fill_method) (m : Metric) (self : FinancialMetricsCalculator)
    (out : list string) :
  calculate fm m self out
  = (Returns (series_of fm m self), out ++ printed (calculate fm m self)).
Proof.
  unfold series_of, result_of, printed.
  destruct m; simpl;
    unfold calculate_revenue_growth, calculate_gross_margin,
      calculate_operating_margin, calculate_net_margin, calculate_free_cash_flow,
      calculate_current_ratio, calculate_debt_to_equity, calculate_roe,
      calculate_roa, try_except, mbind, Py_bind, mret, Py_ret, lift, print;
    repeat (match goal with |- context [loc ?d ?l] => destruct (loc d l) end; simpl);
    by rewrite ?app_nil_r.
Qed.

Ltac unfold_methods :=
  unfold series_of, result_of, printed, calculate, read_row, statement,
    calculate_revenue_growth, calculate_gross_margin,
    calculate_operating_margin, calculate_net_margin, calculate_free_cash_flow,
    calculate_current_ratio, calculate_debt_to_equity, calculate_roe,
    calculate_roa, try_except, mbind, Py_bind, mret, Py_ret, lift, print in *.

(** With both rows present a method prints nothing and returns a series
    over the labels of the two rows; each cell is the cell operation on the
    two cells under the same label. *)
Lemma calculate_cells (fm : fill_method) (m : Metric)
    (self : FinancialMetricsCalculator) (a b : Series) :
  read_row (left_row m) self = Returns a →
  read_row (right_row m) self = Returns b →
  printed (calculate fm m self) = []
  ∧ (∀ p, p ∈ (series_of fm m self).*1 ↔ p ∈ a.*1 ∨ p ∈ b.*1)
  ∧ (∀ p, p ∈ a.*1 ∨ p ∈ b.*1 →
       assoc p (series_of fm m self)
       = Some (cell_op m (get (left_operand fm m a) p) (get (right_operand fm m b) p))).
Proof.
  intros Ha Hb.
  destruct m; unfold_methods; simpl in *; rewrite ?Ha, ?Hb; simpl;
    (split; [done|]); split; intros p.
  all: rewrite ?scalar_op_index, ?binop_index_elem; try tauto.
  all: try (intros Hp; rewrite ?scalar_op_assoc, binop_assoc by tauto; done).
  all: assert (a = b) as <- by congruence.
  - rewrite pct_change_index. tauto.
  - intros Hp. unfold pct_change.
    rewrite !scalar_op_assoc, binop_assoc; [done|].
    rewrite fill_index. tauto.
Qed.

(** A missing row makes the method print one line and return the empty
    series. *)
Lemma calculate_missing (fm : fill_method) (m : Metric)
    (self : FinancialMetricsCalculator) (r : StatementKind * string) (e : exn) :
  r ∈ required m → read_row r self = Raises e →
  series_of fm m self = empty_series
  ∧ ∃ line, printed (calculate fm m self) = [line].
Proof.
  unfold required. rewrite !elem_of_cons, elem_of_nil.
  intros [->|[->|[]]] He;
    destruct m; unfold_methods; simpl in *; rewrite ?He; simpl;
    repeat (match goal with |- context [loc ?d ?l] => destruct (loc d l) end; simpl);
    eauto.
Qed.

(** ** The metrics table *)

Global Instance index_ge_trans {V} : Transitive (@index_ge V).
Proof. intros x y z. unfold index_ge. lia. Qed.
Global Instance index_ge_total {V} : Total (@index_ge V).
Proof. intros x y. unfold index_ge. lia. Qed.
Global Instance index_le_trans {V} : Transitive (@index_le V).
Proof. intros x y z. unfold index_le. lia. Qed.
Global Instance index_le_total {V} : Total (@index_le V).
Proof. intros x y. unfold index_le. lia. Qed.

Lemma sort_index_columns {C V} (asc : bool) (df : DataFrame Period C V) :
  columns (sort_index asc df) = columns df.
Proof. done. Qed.

Lemma sort_index_rows_perm {C V} (asc : bool) (df : DataFrame Period C V) :
  rows (sort_index asc df) ≡ₚ rows df.
Proof. destruct asc; apply merge_sort_Permutation. Qed.

Lemma sort_index_desc_sorted {C V} (df : DataFrame Period C V) :
  StronglySorted (λ p q, q ≤ p) (index (sort_index false df)).
Proof.
  unfold index. simpl.
  pose proof (StronglySorted_merge_sort (@index_ge (list V)) (rows df)) as HS.
  induction HS as [|r l _ IH Hr]; simpl; constructor; [done|].
  apply Forall_fmap. by eapply Forall_impl.
Qed.

Lemma StronglySorted_ge_NoDup (l : list Z) :
  StronglySorted (λ p q, q ≤ p) l → NoDup l → newest_first l.
Proof.
  unfold newest_first.
  induction 1 as [|p l _ IH Hp]; [constructor|].
  intros [Hnin Hnd]%NoDup_cons; constructor; [auto|].
  apply Forall_forall. intros q Hq.
  rewrite Forall_forall in Hp. specialize (Hp q Hq).
  assert (q ≠ p) by (by intros ->). lia.
Qed.



Lemma frame_of_series_index (d : list (string * list (Z * num))) :
  index (frame_of_series d) = union_indexes ((λ kv, kv.2.*1) <$> d).
Proof. unfold index, frame_of_series. simpl. apply fst_tabulate. Qed.

Lemma elem_of_concat {A} (ls : list (list A)) (x : A) :
  x ∈ concat ls ↔ ∃ l, l ∈ ls ∧ x ∈ l.
Proof.
  induction ls as [|l ls IH]; simpl.
  - split; [by intros ?%elem_of_nil | by intros (? & ?%elem_of_nil & _)].
  - rewrite elem_of_app, IH. split.
    + intros [?|(l' & ? & ?)]; [exists l | exists l']; split; try done;
        [left | by right].
    + intros (l' & [->|?]%elem_of_cons & ?); [by left | right; by exists l'].
Qed.

Lemma union_indexes_elem (idxs : list (list Z)) (p : Z) :
  p ∈ union_indexes idxs ↔ ∃ idx, idx ∈ idxs ∧ p ∈ idx.
Proof. unfold union_indexes. rewrite elem_of_unique. apply elem_of_concat. Qed.

Lemma union_indexes_NoDup (idxs : list (list Z)) : NoDup (union_indexes idxs).
Proof. apply NoDup_unique. Qed.

(** The table that [calculate_all_metrics] returns, and what it prints. *)
Lemma calculate_all_metrics_run (fm : fill_method)
    (self : FinancialMetricsCalculator) (out : list string) :
  calculate_all_metrics fm self out
  = (Returns (sort_index false (frame_of_series (metric_series fm self))),
     out ++ printed (calculate_all_metrics fm self)).
Proof.
  unfold printed, calculate_all_metrics, mbind, Py_bind.
  change (calculate_revenue_growth fm self) with (calculate fm RevenueGrowth self).
  change (calculate_gross_margin self) with (calculate fm GrossMargin self).
  change (calculate_operating_margin self) with (calculate fm OperatingMargin self).
  change (calculate_net_margin self) with (calculate fm NetMargin self).
  change (calculate_free_cash_flow self) with (calculate fm FreeCashFlow self).
  change (calculate_current_ratio self) with (calculate fm CurrentRatio self).
  change (calculate_debt_to_equity self) with (calculate fm DebtToEquity self).
  change (calculate_roe self) with (calculate fm ROE self).
  change (calculate_roa self) with (calculate fm ROA self).
  repeat (rewrite (calculate_run fm _ self); cbv beta iota).
  unfold mret, Py_ret. simpl. by rewrite !app_assoc.
Qed.

Lemma metrics_table_eq (fm : fill_method) (self : FinancialMetricsCalculator) :
  metrics_table fm self = sort_index false (frame_of_series (metric_series fm self)).
Proof. unfold metrics_table, result_of. by rewrite calculate_all_metrics_run. Qed.

Lemma metrics_table_columns (fm : fill_method) (self : FinancialMetricsCalculator) :
  columns (metrics_table fm self) = metric_name <$> all_metrics.
Proof. by rewrite metrics_table_eq. Qed.

Lemma metrics_table_index_elem (fm : fill_method)
    (self : FinancialMetricsCalculator) (p : Period) :
  p ∈ index (metrics_table fm self) ↔ ∃ m, p ∈ (series_of fm m self).*1.
Proof.
  rewrite metrics_table_eq. unfold index.
  rewrite sort_index_rows_perm. fold (index (frame_of_series (metric_series fm self))).
  rewrite frame_of_series_index, union_indexes_elem. split.
  - intros (idx & Hidx & Hp).
    apply list_elem_of_fmap in Hidx as ([name s] & -> & Hs).
    apply list_elem_of_fmap in Hs as (m & [= -> ->] & _). by exists m.
  - intros [m Hp]. exists ((series_of fm m self).*1). split; [|done].
    apply list_elem_of_fmap. exists (metric_name m, series_of fm m self).
    split; [done|]. apply list_elem_of_fmap. exists m. split; [done|].
    destruct m; unfold all_metrics; repeat first [by left | right].
Qed.

Lemma metrics_table_index_NoDup (fm : fill_method) (self : FinancialMetricsCalculator) :
  NoDup (index (metrics_table fm self)).
Proof.
  rewrite metrics_table_eq. unfold index. rewrite sort_index_rows_perm.
  fold (index (frame_of_series (metric_series fm self))).
  rewrite frame_of_series_index. apply union_indexes_NoDup.
Qed.

Lemma metrics_table_newest_first (fm : fill_method) (self : FinancialMetricsCalculator) :
  newest_first (index (metrics_table fm self)).
Proof.
  apply StronglySorted_ge_NoDup; [|apply metrics_table_index_NoDup].
  rewrite metrics_table_eq. apply sort_index_desc_sorted.
Qed.

(** The cell of the table under a period and a metric is the cell of that
    metric's own series, [NaN] where the series lacks the period. *)
Lemma metrics_table_cell (fm : fill_method) (self : FinancialMetricsCalculator)
    (p : Period) (m : Metric) :
  p ∈ index (metrics_table fm self) →
  cell (metrics_table fm self) p (metric_name m) = Some (get (series_of fm m self) p).
Proof.
  intros Hp. unfold cell.
  pose proof (metrics_table_index_NoDup fm self) as Hnd.
  revert Hp Hnd. rewrite metrics_table_columns, metrics_table_eq. unfold index.
  set (d := metric_series fm self). intros Hp Hnd.
  assert (Hrow : assoc p (rows (sort_index false (frame_of_series d)))
                 = Some ((λ kv, get kv.2 p) <$> d)).
  { apply assoc_NoDup; [done|].
    rewrite sort_index_rows_perm. rewrite sort_index_rows_perm in Hp.
    unfold frame_of_series in *. simpl in *.
    rewrite fst_tabulate in Hp.
    apply list_elem_of_fmap. by exists p. }
  rewrite Hrow. by destruct m.
Qed.

(** Every row of the table lists the nine metrics at the row's period. *)
Lemma metrics_table_row_cells (fm : fill_method) (self : FinancialMetricsCalculator)
    (r : Z * list num) :
  r ∈ rows (metrics_table fm self) →
  r.2 = (λ m, get (series_of fm m self) r.1) <$> all_metrics.
Proof.
  rewrite metrics_table_eq, sort_index_rows_perm. unfold frame_of_series. simpl.
  intros (p & -> & _)%list_elem_of_fmap. done.
Qed.

(** The first row of the table is its most recent period. *)
Lemma metrics_table_head_latest (fm : fill_method)
    (self : FinancialMetricsCalculator) (r : Z * list num) (rest : list (Z * list num)) :
  rows (metrics_table fm self) = r :: rest →
  ∀ q, q ∈ index (metrics_table fm self) → q ≤ r.1.
Proof.
  intros Hr q. pose proof (metrics_table_newest_first fm self) as HS.
  unfold index in *. rewrite Hr in *. simpl in *.
  apply StronglySorted_inv in HS as [_ HS]. rewrite Forall_forall in HS.
  intros [->|Hq]%elem_of_cons; [lia|]. specialize (HS q Hq). lia.
Qed.

(** ** The aggregator *)

Lemma assoc_zip_row {V} (d : V) (ks : list string) (vs : list V) :
  NoDup ks → length ks = length vs →
  (λ c, default d (assoc c (zip ks vs))) <$> ks = vs.
Proof.
  revert vs. induction ks as [|k ks IH]; intros [|v vs] Hnd Hlen; simplify_eq/=;
    [done|].
  apply NoDup_cons in Hnd as [Hk Hnd].
  rewrite decide_True by done. simpl. f_equal.
  transitivity ((λ c, default d (assoc c (zip ks vs))) <$> ks); [|by apply IH].
  apply list_fmap_ext. intros i c Hc.
  rewrite decide_False; [done|]. intros ->. apply Hk.
  by eapply list_elem_of_lookup_2.
Qed.

Lemma comparison_columns_NoDup : NoDup comparison_columns.
Proof. apply (bool_decide_unpack _). by vm_compute. Qed.

(** [pd.DataFrame] on dicts that all have the same keys. *)
Lemma frame_of_records_uniform (cols : list string) (vals : list (list pyval)) :
  NoDup cols → Forall (λ v, length v = length cols) vals →
  frame_of_records (zip cols <$> vals)
  = mkDataFrame (match vals with [] => [] | _ => cols end)
                (imap (λ i v, (i, v)) vals).
Proof.
  intros Hnd Hlen. unfold frame_of_records.
  assert (Hkeys : ∀ v, v ∈ vals → (zip cols v).*1 = cols).
  { intros v Hv. rewrite Forall_forall in Hlen. apply fst_zip.
    by rewrite (Hlen v Hv). }
  assert (Hcols : unique (concat ((λ r : list (string * pyval), r.*1) <$> (zip cols <$> vals)))
                  = match vals with [] => [] | _ => cols end).
  { destruct vals as [|v vals]; [done|]. simpl.
    rewrite (Hkeys v) by left. apply unique_app_absorb; [done|].
    intros x (l & Hl & Hx)%elem_of_concat.
    apply list_elem_of_fmap in Hl as (r & -> & Hr).
    apply list_elem_of_fmap in Hr as (w & -> & Hw).
    rewrite Hkeys in Hx; [done | by right]. }
  rewrite Hcols. f_equal.
  destruct vals as [|v0 vals0]; [done|].
  set (vals := v0 :: vals0) in *.
  rewrite imap_fmap. apply imap_ext. intros i v Hv. simpl. f_equal.
  apply assoc_zip_row; [done|]. rewrite Forall_forall in Hlen.
  symmetry. apply Hlen. by eapply list_elem_of_lookup_2.
Qed.

Lemma latest_record_cons (fm : fill_method) (c : string * CompanyData)
    (r : Z * list num) (rest : list (Z * list num)) :
  rows (metrics_table fm (calculator_of c.2)) = r :: rest →
  latest_record fm c = Some (zip comparison_columns (comparison_row fm c)).
Proof.
  intros Hr. unfold latest_record, comparison_row, first_row.
  rewrite Hr, metrics_table_columns. simpl.
  rewrite (metrics_table_row_cells fm (calculator_of c.2) r) by (rewrite Hr; left).
  done.
Qed.

Lemma latest_record_nil (fm : fill_method) (c : string * CompanyData) :
  rows (metrics_table fm (calculator_of c.2)) = [] → latest_record fm c = None.
Proof. intros Hr. unfold latest_record. by rewrite Hr. Qed.

Lemma comparison_row_length (fm : fill_method) (c : string * CompanyData) :
  has_metrics fm c → length (comparison_row fm c) = length comparison_columns.
Proof.
  unfold has_metrics, comparison_row, first_row.
  destruct (rows (metrics_table fm (calculator_of c.2))) as [|r rest] eqn:Hr; [done|].
  intros _. simpl.
  rewrite (metrics_table_row_cells fm (calculator_of c.2) r) by (rewrite Hr; left).
  done.
Qed.

Lemma omap_latest_record (fm : fill_method) (cs : list (string * CompanyData)) :
  omap (latest_record fm) cs
  = zip comparison_columns <$> (comparison_row fm <$> filter (has_metrics fm) cs).
Proof.
  induction cs as [|c cs IH]; [done|]. cbn [omap list_omap].
  destruct (rows (metrics_table fm (calculator_of c.2))) as [|r rest] eqn:Hr.
  - rewrite latest_record_nil by done.
    rewrite filter_cons_False; [done|]. unfold has_metrics. rewrite Hr.
    intros Hne. by apply Hne.
  - erewrite latest_record_cons by done.
    rewrite filter_cons_True by (unfold has_metrics; by rewrite Hr).
    rewrite !fmap_cons. f_equal. apply IH.
Qed.

Lemma df_empty_metrics_table (fm : fill_method) (self : FinancialMetricsCalculator) :
  df_empty (metrics_table fm self)
  = match rows (metrics_table fm self) with [] => true | _ => false end.
Proof. unfold df_empty. by rewrite metrics_table_columns. Qed.

Lemma comparison_loop_run (fm : fill_method) (items : list (string * CompanyData))
    (acc : list (list (string * pyval))) (out : list string) :
  ∃ out', comparison_loop fm items acc out
          = (Returns (acc ++ omap (latest_record fm) items), out').
Proof.
  revert acc out. induction items as [|[ticker data] items IH]; intros acc out.
  - exists out. simpl. by rewrite app_nil_r.
  - cbn [comparison_loop omap list_omap]. unfold mbind, Py_bind.
    change (mkCalculator _ _ _) with (calculator_of data).
    rewrite calculate_all_metrics_run, <-metrics_table_eq.
    rewrite df_empty_metrics_table.
    unfold latest_record, iloc, lift. cbn [fst snd].
    destruct (rows (metrics_table fm (calculator_of data))) as [|r rest];
      cbn [negb lookup list_lookup].
    + apply IH.
    + edestruct IH as [out' E]. exists out'. rewrite E.
      by rewrite <-app_assoc.
Qed.

(** The aggregator returns the comparison table of the design. *)
Lemma create_comparison_dataframe_run (fm : fill_method)
    (cs : list (string * CompanyData)) (out : list string) :
  ∃ out', create_comparison_dataframe fm cs out
          = (Returns (comparison_table fm cs), out').
Proof.
  unfold create_comparison_dataframe, mbind, Py_bind.
  destruct (comparison_loop_run fm cs [] out) as [out' ->].
  exists out'. unfold mret, Py_ret. do 2 f_equal. simpl.
  rewrite omap_latest_record, frame_of_records_uniform.
  - unfold comparison_table. rewrite imap_fmap.
    by destruct (filter (has_metrics fm) cs).
  - apply comparison_columns_NoDup.
  - apply Forall_fmap, Forall_forall. intros c [Hc _]%list_elem_of_filter.
    by apply comparison_row_length.
Qed.

(** ** Storage order and chronology *)

Section sorted_positions.
Context (R : Z → Z → Prop) `{!Irreflexive R, !Transitive R}.


End sorted_positions.

Global Instance Zgt_irrefl : Irreflexive (λ p q : Z, q < p).
Proof. intros p. unfold complement. lia. Qed.
Global Instance Zgt_trans : Transitive (λ p q : Z, q < p).
Proof. intros p q r. lia. Qed.
Global Instance Zlt_irrefl : Irreflexive (λ p q : Z, p < q).
Proof. intros p. unfold complement. lia. Qed.
Global Instance Zlt_trans : Transitive (λ p q : Z, p < q).
Proof. intros p q r. lia. Qed.



(** *** Revenue growth by position *)

Lemma revenue_growth_run (fm : fill_method) (self : FinancialMetricsCalculator)
    (revenue : list (Z * num)) (out : list string) :
  loc (income_stmt self) "Total Revenue" = Returns revenue →
  calculate_revenue_growth fm self out
  = (Returns (scalar_op num_mul (pct_change (-1) fm revenue) (num_of_Z 100)), out).
Proof. intros H. unfold_methods. by rewrite H. Qed.

Lemma growth_index (fm : fill_method) (revenue : list (Z * num)) :
  (scalar_op num_mul (pct_change (-1) fm revenue) (num_of_Z 100)).*1 = revenue.*1.
Proof. by rewrite scalar_op_index, pct_change_index. Qed.







(** Closed equations between computed values. *)
Ltac by_computation := apply (bool_decide_unpack _); vm_compute; exact I.

(** * The claims *)

(** ** Revenue growth *)






(** ** Denominators *)

Lemma signed_inf_is_inf (x : Qc) :
  x ≠ Q2Qc 0 → is_inf (signed_inf (Qc_sign x)) = true.
Proof.
  intros Hx. destruct (Qc_sign x) eqn:E; [|done..].
  by apply Qc_sign_eq in E.
Qed.

Lemma cell_op_nan_r (m : Metric) (x : num) :
  has_denominator m = true → cell_op m x NaN = NaN.
Proof. destruct m; [..|done| | | |]; intros _; simpl; by rewrite ?num_div_nan_r. Qed.

Lemma cell_op_zero_zero (m : Metric) :
  has_denominator m = true → cell_op m (qz 0) (qz 0) = NaN.
Proof. by destruct m. Qed.

Lemma cell_op_zero_r (m : Metric) (x : Qc) :
  has_denominator m = true → cell_op m (Fin x) (qz 0) = signed_inf (Qc_sign x).
Proof.
  destruct m; try done; intros _; unfold cell_op, qz, num_of_Z;
    change (Q2Qc (inject_Z 0)) with (Q2Qc 0);
    rewrite num_div_zero; fold (num_of_Z 1); fold (num_of_Z 100);
    by rewrite ?signed_inf_pred, ?signed_inf_scale.
Qed.

(** C2, as amended.  For every dividing metric (the three margins, current
    ratio, debt to equity, ROE, ROA, and revenue growth with the filled
    revenue of the next stored column as divisor) whose rows are present,
    the method raises nothing and prints nothing, and the cell of a period
    is the cell operation on that period's own two cells.  So: an undefined
    divisor gives an undefined cell; zero divided by zero gives an
    undefined cell; a non-zero number divided by zero gives the infinity of
    the numerator's sign, which is not an undefined cell. *)
Theorem zero_denominator_cells (fm : fill_method) (m : Metric)
    (self : FinancialMetricsCalculator) (a b : list (Z * num)) (out : list string) :
  has_denominator m = true →
  read_row (left_row m) self = Returns a →
  read_row (right_row m) self = Returns b →
  ∃ r, calculate fm m self out = (Returns r, out)
    ∧ ∀ p, p ∈ a.*1 ∨ p ∈ b.*1 →
        let n := get (left_operand fm m a) p in
        let d := get (right_operand fm m b) p in
        assoc p r = Some (cell_op m n d)
        ∧ (d = NaN → get r p = NaN)
        ∧ (d = qz 0 → n = qz 0 → get r p = NaN)
        ∧ (∀ x, d = qz 0 → n = Fin x → x ≠ Q2Qc 0 →
             get r p = signed_inf (Qc_sign x) ∧ is_inf (get r p) = true
             ∧ isna (get r p) = false).
Proof.
  intros Hm Ha Hb.
  destruct (calculate_cells fm m self a b Ha Hb) as (Hpr & _ & Hcell).
  exists (series_of fm m self). split.
  { by rewrite calculate_run, Hpr, app_nil_r. }
  intros p Hp n d. specialize (Hcell p Hp). fold n d in Hcell.
  split; [done|]. rewrite (get_assoc _ _ _ Hcell).
  split; [intros ->; by apply cell_op_nan_r|].
  split; [intros -> ->; by apply cell_op_zero_zero|].
  intros x -> -> Hx. rewrite cell_op_zero_r by done.
  pose proof (signed_inf_is_inf x Hx) as Hinf.
  split; [done|]. split; [done|]. by destruct (signed_inf (Qc_sign x)).
Qed.

Lemma zero_denominator_cells_witness :
  has_denominator GrossMargin = true
  ∧ read_row (left_row GrossMargin) calc_zero_revenue
    = Returns [(2023, qz 40); (2022, qz 30)]
  ∧ read_row (right_row GrossMargin) calc_zero_revenue
    = Returns [(2023, qz 0); (2022, qz 100)]
  ∧ ∃ r, calculate Pad GrossMargin calc_zero_revenue [] = (Returns r, [])
      ∧ get r 2023 = PInf
      ∧ assoc 2022 r = Some (cell_op GrossMargin (qz 30) (qz 100)).
Proof.
  assert (H1 : read_row (left_row GrossMargin) calc_zero_revenue
               = Returns [(2023, qz 40); (2022, qz 30)]) by reflexivity.
  assert (H2 : read_row (right_row GrossMargin) calc_zero_revenue
               = Returns [(2023, qz 0); (2022, qz 100)]) by reflexivity.
  split; [reflexivity|]. split; [exact H1|]. split; [exact H2|].
  destruct (zero_denominator_cells Pad GrossMargin calc_zero_revenue _ _ [] eq_refl H1 H2)
    as (r & Hrun & Hcells).
  exists r. split; [exact Hrun|]. split.
  - assert (Hp : (2023:Z) ∈ [(2023, qz 40); (2022, qz 30)].*1
                 ∨ (2023:Z) ∈ [(2023, qz 0); (2022, qz 100)].*1) by (left; left).
    destruct (Hcells 2023 Hp) as (_ & _ & _ & Hinf).
    destruct (Hinf (Q2Qc (inject_Z 40)) eq_refl eq_refl) as [-> _]; [|reflexivity].
    intros Habs. discriminate (f_equal this Habs).
  - assert (Hp : (2022:Z) ∈ [(2023, qz 40); (2022, qz 30)].*1
                 ∨ (2022:Z) ∈ [(2023, qz 0); (2022, qz 100)].*1) by (left; right; left).
    exact (proj1 (Hcells 2022 Hp)).
Defined.

(** C2 as stated fails: with revenue 0 and gross profit 40 in 2023 the
    gross margin of 2023 is plus infinity, which pandas does not count as
    undefined; the margin of 2022 is still a number. *)
Lemma zero_denominator_counterexample :
  calculate_gross_margin calc_zero_revenue []
    = (Returns [(2023, PInf); (2022, qz 30)], [])
  ∧ ¬ undefined_on_bad_denominator Pad calc_zero_revenue
  ∧ ¬ undefined_on_bad_denominator NoFill calc_zero_revenue.
Proof.
  split; [by_computation|].
  split; intros H;
    specialize (H GrossMargin [(2023, qz 40); (2022, qz 30)]
                  [(2023, qz 0); (2022, qz 100)] 2023 eq_refl eq_refl eq_refl);
    (assert (Hne : get (series_of Pad GrossMargin calc_zero_revenue) 2023 ≠ NaN)
       by (by vm_compute));
    apply Hne, H; [by left | by right | by left | by right].
Qed.

(** ** Missing rows and empty statements *)

Lemma loc_absent (df : Statement) (label : string) :
  df = empty_frame ∨ label ∉ index df → loc df label = Raises (KeyError label).
Proof.
  intros H. unfold loc.
  assert (Hn : assoc label (rows df) = None).
  { apply assoc_None. destruct H as [->|H]; [apply not_elem_of_nil | done]. }
  by rewrite Hn.
Qed.

(** C3.  Whatever the metric, if one of the line items it reads is absent
    from its statement, or that statement is empty, the method returns the
    empty series; it raises nothing and prints one line. *)
Theorem missing_row_gives_empty_series (fm : fill_method) (m : Metric)
    (self : FinancialMetricsCalculator) (k : StatementKind) (label : string)
    (out : list string) :
  (k, label) ∈ required m →
  statement k self = empty_frame ∨ label ∉ index (statement k self) →
  ∃ line, calculate fm m self out = (Returns empty_series, out ++ [line]).
Proof.
  intros Hreq Habs.
  destruct (calculate_missing fm m self (k, label) (KeyError label) Hreq)
    as (Hs & line & Hline).
  { by apply loc_absent. }
  exists line. by rewrite calculate_run, Hs, Hline.
Qed.

Lemma missing_row_gives_empty_series_witness :
  (Income, "Gross Profit") ∈ required GrossMargin
  ∧ (statement Income calc_no_gross_profit = empty_frame
     ∨ "Gross Profit" ∉ index (statement Income calc_no_gross_profit))
  ∧ ∃ line, calculate Pad GrossMargin calc_no_gross_profit []
            = (Returns empty_series, [] ++ [line]).
Proof.
  assert (H1 : (Income, "Gross Profit") ∈ required GrossMargin) by left.
  assert (H2 : statement Income calc_no_gross_profit = empty_frame
               ∨ "Gross Profit" ∉ index (statement Income calc_no_gross_profit)).
  { right. apply (bool_decide_unpack _). by vm_compute. }
  split; [exact H1|]. split; [exact H2|].
  exact (missing_row_gives_empty_series Pad GrossMargin calc_no_gross_profit
           Income "Gross Profit" [] H1 H2).
Defined.

(** ** Free cash flow *)

(** C4.  With both rows present, [calculate_free_cash_flow] returns for
    each period the operating cash flow plus the capital expenditure of
    that period; 500 and -120 give 380. *)
Theorem free_cash_flow_is_sum (self : FinancialMetricsCalculator)
    (operating_cf capex : list (Z * num)) (out : list string) :
  loc (cash_flow self) "Operating Cash Flow" = Returns operating_cf →
  loc (cash_flow self) "Capital Expenditure" = Returns capex →
  ∃ fcf, calculate_free_cash_flow self out = (Returns fcf, out)
    ∧ (∀ p, p ∈ fcf.*1 ↔ p ∈ operating_cf.*1 ∨ p ∈ capex.*1)
    ∧ (∀ p, p ∈ operating_cf.*1 ∨ p ∈ capex.*1 →
         assoc p fcf = Some (num_add (get operating_cf p) (get capex p)))
    ∧ (∀ p, get operating_cf p = qz 500 → get capex p = qz (-120) →
         get fcf p = qz 380).
Proof.
  intros Ho Hc.
  destruct (calculate_cells Pad FreeCashFlow self _ _ Ho Hc) as (Hpr & Hidx & Hcell).
  exists (series_of Pad FreeCashFlow self). split.
  { by rewrite (calculate_run Pad FreeCashFlow), Hpr, app_nil_r. }
  split; [done|]. split; [done|].
  intros p Hop Hcp.
  assert (Hp : p ∈ operating_cf.*1) by (apply get_present; by rewrite Hop).
  rewrite (get_assoc _ _ _ (Hcell p (or_introl Hp))). simpl. by rewrite Hop, Hcp.
Qed.

Lemma free_cash_flow_is_sum_witness :
  loc (cash_flow calc_cash_flow) "Operating Cash Flow" = Returns [(2023, qz 500)]
  ∧ loc (cash_flow calc_cash_flow) "Capital Expenditure" = Returns [(2023, qz (-120))]
  ∧ ∃ fcf, calculate_free_cash_flow calc_cash_flow [] = (Returns fcf, [])
           ∧ get fcf 2023 = qz 380.
Proof.
  assert (H1 : loc (cash_flow calc_cash_flow) "Operating Cash Flow"
               = Returns [(2023, qz 500)]) by reflexivity.
  assert (H2 : loc (cash_flow calc_cash_flow) "Capital Expenditure"
               = Returns [(2023, qz (-120))]) by reflexivity.
  split; [exact H1|]. split; [exact H2|].
  destruct (free_cash_flow_is_sum calc_cash_flow _ _ [] H1 H2)
    as (fcf & Hrun & _ & _ & H380).
  exists fcf. split; [exact Hrun|]. exact (H380 2023 eq_refl eq_refl).
Defined.

(** ** The metrics table *)

(** C5.  [calculate_all_metrics] raises nothing and returns one table with
    the nine metrics as columns.  A period is a row exactly when some
    metric's series has it (outer join); the cell under a metric is that
    metric's value for the period, and undefined where the metric's series
    lacks the period; the rows run from the most recent period down, each
    period once. *)
Theorem all_metrics_outer_join (fm : fill_method)
    (self : FinancialMetricsCalculator) (out : list string) :
  ∃ df out',
    calculate_all_metrics fm self out = (Returns df, out')
    ∧ columns df = metric_name <$> all_metrics
    ∧ (∀ p, p ∈ index df ↔ ∃ m, p ∈ (series_of fm m self).*1)
    ∧ (∀ p m, p ∈ index df →
         cell df p (metric_name m) = Some (get (series_of fm m self) p))
    ∧ (∀ p m, p ∈ index df → p ∉ (series_of fm m self).*1 →
         cell df p (metric_name m) = Some NaN)
    ∧ newest_first (index df).
Proof.
  exists (metrics_table fm self), (out ++ printed (calculate_all_metrics fm self)).
  split; [by rewrite calculate_all_metrics_run, <-metrics_table_eq|].
  split; [apply metrics_table_columns|].
  split; [apply metrics_table_index_elem|].
  split; [intros p m; apply metrics_table_cell|].
  split; [|apply metrics_table_newest_first].
  intros p m Hp Hnot. rewrite metrics_table_cell by done.
  by rewrite get_absent.
Qed.


(** ** Empty balance sheet *)

Lemma cell_nan_of_missing (fm : fill_method) (self : FinancialMetricsCalculator)
    (m : Metric) (r : StatementKind * string) (e : exn) (p : Period) :
  r ∈ required m → read_row r self = Raises e →
  p ∈ index (metrics_table fm self) →
  cell (metrics_table fm self) p (metric_name m) = Some NaN.
Proof.
  intros Hr He Hp. rewrite metrics_table_cell by done.
  destruct (calculate_missing fm m self r e Hr He) as [-> _]. done.
Qed.

(** C7.  With an empty balance sheet and a "Total Revenue" row in the
    income statement, the table of [calculate_all_metrics] has undefined
    Current Ratio, Debt to Equity, ROE and ROA in every row, while every
    period of the income statement is a row whose Revenue Growth cell is
    the one [calculate_revenue_growth] computes and whose margin cells are
    numerator over revenue times 100 (for the margins whose numerator row
    is present). *)
Theorem empty_balance_sheet_metrics (fm : fill_method)
    (self : FinancialMetricsCalculator) (revenue : list (Z * num))
    (out : list string) :
  balance_sheet self = empty_frame →
  loc (income_stmt self) "Total Revenue" = Returns revenue →
  ∃ df out',
    calculate_all_metrics fm self out = (Returns df, out')
    ∧ (∀ p m, p ∈ index df → m ∈ [CurrentRatio; DebtToEquity; ROE; ROA] →
         cell df p (metric_name m) = Some NaN)
    ∧ (∀ p, p ∈ revenue.*1 →
         p ∈ index df
         ∧ cell df p "Revenue Growth (%)"
           = Some (get (scalar_op num_mul (pct_change (-1) fm revenue) (num_of_Z 100)) p))
    ∧ (∀ p m numerator, p ∈ revenue.*1 →
         m ∈ [GrossMargin; OperatingMargin; NetMargin] →
         read_row (left_row m) self = Returns numerator →
         cell df p (metric_name m)
         = Some (num_mul (num_div (get numerator p) (get revenue p)) (num_of_Z 100))).
Proof.
  intros Hbs Hrev.
  exists (metrics_table fm self), (out ++ printed (calculate_all_metrics fm self)).
  split; [by rewrite calculate_all_metrics_run, <-metrics_table_eq|].
  assert (Hgrowth : series_of fm RevenueGrowth self
                    = scalar_op num_mul (pct_change (-1) fm revenue) (num_of_Z 100)).
  { unfold series_of, result_of. simpl. by rewrite (revenue_growth_run fm self revenue). }
  assert (Hrow : ∀ p, p ∈ revenue.*1 → p ∈ index (metrics_table fm self)).
  { intros p Hp. apply metrics_table_index_elem. exists RevenueGrowth.
    by rewrite Hgrowth, growth_index. }
  split; [|split].
  - intros p m Hp Hm.
    apply (cell_nan_of_missing fm self m (right_row m)
             (KeyError (right_row m).2)); [by right; left | | done].
    unfold read_row. apply loc_absent. left.
    repeat (apply elem_of_cons in Hm as [->|Hm]; [done|]).
    by apply elem_of_nil in Hm.
  - intros p Hp. split; [by apply Hrow|].
    change "Revenue Growth (%)" with (metric_name RevenueGrowth).
    rewrite metrics_table_cell by by apply Hrow. by rewrite Hgrowth.
  - intros p m numerator Hp Hm Hnum.
    rewrite metrics_table_cell by by apply Hrow.
    assert (Hright : read_row (right_row m) self = Returns revenue).
    { repeat (apply elem_of_cons in Hm as [->|Hm]; [done|]).
      by apply elem_of_nil in Hm. }
    destruct (calculate_cells fm m self _ _ Hnum Hright) as (_ & _ & Hcell).
    rewrite (get_assoc _ _ _ (Hcell p (or_intror Hp))).
    repeat (apply elem_of_cons in Hm as [->|Hm]; [done|]).
    by apply elem_of_nil in Hm.
Qed.

Lemma empty_balance_sheet_metrics_witness :
  balance_sheet (calculator_of company_B) = empty_frame
  ∧ loc (income_stmt (calculator_of company_B)) "Total Revenue"
    = Returns [(2023, qz 120); (2022, qz 100)]
  ∧ ∃ df out',
      calculate_all_metrics Pad (calculator_of company_B) [] = (Returns df, out')
      ∧ cell df 2023 "ROE (%)" = Some NaN
      ∧ cell df 2023 "Gross Margin (%)"
        = Some (num_mul (num_div (qz 54) (qz 120)) (num_of_Z 100)).
Proof.
  assert (H1 : balance_sheet (calculator_of company_B) = empty_frame) by reflexivity.
  assert (H2 : loc (income_stmt (calculator_of company_B)) "Total Revenue"
               = Returns [(2023, qz 120); (2022, qz 100)]) by reflexivity.
  split; [exact H1|]. split; [exact H2|].
  destruct (empty_balance_sheet_metrics Pad (calculator_of company_B) _ [] H1 H2)
    as (df & out' & Hrun & Hnan & Hgrowth & Hmargin).
  exists df, out'. split; [exact Hrun|].
  assert (Hp : (2023:Z) ∈ [(2023, qz 120); (2022, qz 100)].*1) by left.
  split.
  - apply (Hnan 2023 ROE); [exact (proj1 (Hgrowth 2023 Hp))|].
    right; right; left.
  - apply (Hmargin 2023 GrossMargin [(2023, qz 54); (2022, qz 40)] Hp);
      [left | reflexivity].
Defined.

(** ** The comparison table *)

Lemma comparison_table_rows_lookup (fm : fill_method)
    (cs : list (string * CompanyData)) (i : nat) (c : string * CompanyData) :
  filter (has_metrics fm) cs !! i = Some c →
  rows (comparison_table fm cs) !! i = Some (i, comparison_row fm c).
Proof. intros Hc. unfold comparison_table. simpl. by rewrite list_lookup_imap, Hc. Qed.

Lemma comparison_table_rows_elem (fm : fill_method)
    (cs : list (string * CompanyData)) (r : nat * list pyval) :
  r ∈ rows (comparison_table fm cs) →
  ∃ c, c ∈ cs ∧ has_metrics fm c ∧ r.2 = comparison_row fm c.
Proof.
  intros [i Hi]%list_elem_of_lookup_1. unfold comparison_table in Hi. simpl in Hi.
  rewrite list_lookup_imap in Hi.
  destruct (filter (has_metrics fm) cs !! i) as [c|] eqn:Hc; simplify_eq/=.
  apply list_elem_of_lookup_2, list_elem_of_filter in Hc as [? ?]. by exists c.
Qed.

Lemma elem_of_comparison_row (fm : fill_method) (c : string * CompanyData)
    (ticker : string) :
  PStr ticker ∈ comparison_row fm c → ticker = c.1.
Proof.
  unfold comparison_row. rewrite elem_of_app, list_elem_of_fmap, list_elem_of_singleton.
  intros [(x & ? & _)|?]; by simplify_eq.
Qed.

Lemma same_key_same_entry {V} (l : list (string * V)) (c c' : string * V) :
  NoDup l.*1 → c ∈ l → c' ∈ l → c.1 = c'.1 → c = c'.
Proof.
  destruct c as [k v], c' as [k' v']. simpl. intros Hnd Hc Hc' <-.
  pose proof (assoc_NoDup k v l Hnd Hc) as E.
  rewrite (assoc_NoDup k v' l Hnd Hc') in E. congruence.
Qed.

(** C6.  The aggregator raises nothing.  Its table has one row per company
    whose metrics table is non-empty, in the order of the input; that row
    holds the cells of the first row of the company's metrics table, which
    is the company's most recent period, followed by the company
    identifier.  A company whose metrics table is empty occurs in no
    row. *)
Theorem comparison_rows_of_companies (fm : fill_method)
    (cs : list (string * CompanyData)) (out : list string) :
  NoDup cs.*1 →
  ∃ df out',
    create_comparison_dataframe fm cs out = (Returns df, out')
    ∧ length (rows df) = length (filter (has_metrics fm) cs)
    ∧ (∀ (i : nat) c, filter (has_metrics fm) cs !! i = Some c →
         ∃ r rest,
           rows (metrics_table fm (calculator_of c.2)) = r :: rest
           ∧ (∀ q, q ∈ index (metrics_table fm (calculator_of c.2)) → q ≤ r.1)
           ∧ rows df !! i = Some (i, (PNum <$> r.2) ++ [PStr c.1]))
    ∧ (filter (has_metrics fm) cs ≠ [] → columns df = comparison_columns)
    ∧ (∀ c r, c ∈ cs → ¬ has_metrics fm c → r ∈ rows df → PStr c.1 ∉ r.2).
Proof.
  intros Hnd. destruct (create_comparison_dataframe_run fm cs out) as [out' Hrun].
  exists (comparison_table fm cs), out'. split; [done|].
  split; [unfold comparison_table; simpl; by rewrite length_imap|].
  split; [|split].
  - intros i c Hc.
    assert (Hm : has_metrics fm c).
    { by apply list_elem_of_lookup_2, list_elem_of_filter in Hc as [? _]. }
    unfold has_metrics in Hm.
    destruct (rows (metrics_table fm (calculator_of c.2))) as [|r rest] eqn:Hr; [done|].
    exists r, rest. split; [done|].
    split; [by eapply metrics_table_head_latest|].
    rewrite (comparison_table_rows_lookup fm cs i c Hc).
    unfold comparison_row, first_row. by rewrite Hr.
  - unfold comparison_table. simpl. by destruct (filter (has_metrics fm) cs).
  - intros c r Hc Hno Hr Hin.
    apply comparison_table_rows_elem in Hr as (c' & Hc' & Hm' & Hrow).
    rewrite Hrow in Hin. apply elem_of_comparison_row in Hin.
    assert (c = c') as -> by by apply (same_key_same_entry cs).
    done.
Qed.

Lemma comparison_rows_of_companies_witness :
  NoDup companies_sample.*1
  ∧ ∃ df out',
      create_comparison_dataframe Pad companies_sample [] = (Returns df, out')
      ∧ length (rows df) = 2%nat
      ∧ ∀ r, r ∈ rows df → PStr "CCC" ∉ r.2.
Proof.
  assert (H1 : NoDup companies_sample.*1).
  { apply (bool_decide_unpack _). by vm_compute. }
  split; [exact H1|].
  destruct (comparison_rows_of_companies Pad companies_sample [] H1)
    as (df & out' & Hrun & Hlen & _ & _ & Habsent).
  exists df, out'. split; [exact Hrun|]. split.
  - rewrite Hlen. by vm_compute.
  - intros r. apply (Habsent ("CCC", company_C)).
    + right; left.
    + unfold has_metrics. intros Hne. apply Hne. by vm_compute.
Defined.

(** ** Failures stay local *)





(** ** A worked table *)

(** Revenue 100 then 120 and gross profit 40 then 54, stored newest first:
    gross margin 45 % and 40 %, revenue growth 20 % and undefined; the
    metrics whose rows are missing are undefined in both rows, and each of
    the six failing methods prints its line. *)
Example sample_metrics_table :
  calculate_all_metrics Pad calc_newest_first []
  = (Returns
       (mkDataFrame (metric_name <$> all_metrics)
          [(2023, [qz 20; qz 45; NaN; qz 10; NaN; NaN; NaN; NaN; NaN]);
           (2022, [NaN; qz 40; NaN; qz 10; NaN; NaN; NaN; NaN; NaN])]),
     ["Error calculating operating margin: 'Operating Income'";
      "Error calculating free cash flow: 'Operating Cash Flow'";
      "Error calculating current ratio: 'Current Assets'";
      "Error calculating debt-to-equity: 'Total Debt'";
      "Error calculating ROE: 'Stockholders Equity'";
      "Error calculating ROA: 'Total Assets'"]).
Proof. by_computation. Qed.

(** * Further properties *)

(** ** Validation *)

(** X1.  [validate_financial_data] reports a frame as valid exactly when it
    is not empty and has every required field in its index; the fields it
    lists as missing are the required fields that an empty frame, or the
    index of a non-empty one, lacks.  An empty frame is never valid, not
    even when nothing is required. *)
Theorem validate_financial_data_spec (dataframe : Statement) (required_fields : list string) :
  ((validate_financial_data dataframe required_fields).1 = true
   ↔ df_empty dataframe = false ∧ ∀ f, f ∈ required_fields → f ∈ index dataframe)
  ∧ (∀ f, f ∈ (validate_financial_data dataframe required_fields).2
          ↔ f ∈ required_fields ∧ (df_empty dataframe = true ∨ f ∉ index dataframe))
  ∧ (df_empty dataframe = true →
     validate_financial_data dataframe required_fields = (false, required_fields)).
Proof.
  unfold validate_financial_data.
  destruct (df_empty dataframe) eqn:He; simpl.
  - split; [split; [done | by intros [? _]]|]. split; [|done].
    intros f. split; [by auto | by intros [? _]].
  - split; [|split; [|done]].
    + rewrite bool_decide_eq_true, length_zero_iff_nil. split.
      * intros Hnil. split; [done|]. intros f Hf.
        destruct (decide (f ∈ index dataframe)) as [|Hn]; [done|].
        by destruct (filter_nil_not_elem_of _ _ f Hnil Hn Hf).
      * intros [_ Hall]. apply filter_none. intros f Hf Hn. by apply Hn, Hall.
    + intros f. rewrite list_elem_of_filter. split.
      * intros [? ?]. by auto.
      * intros [? [?|?]]; by auto.
Qed.

Lemma loc_decide (df : Statement) (label : string) :
  loc df label
  = if decide (label ∈ index df)
    then Returns (zip (columns df) (default [] (assoc label (rows df))))
    else Raises (KeyError label).
Proof.
  unfold loc. case_decide as H.
  - apply assoc_is_Some in H as [cells ->]. done.
  - by apply assoc_None in H as ->.
Qed.

Lemma validate_single_row (df : Statement) (label : string) :
  (validate_financial_data df [label]).1 = true → label ∈ index df.
Proof.
  intros H. apply validate_financial_data_spec in H as [_ H]. apply H. by left.
Qed.

(** X2.  Validation is sufficient for a metric: when every row that a
    metric reads passes [validate_financial_data] on its statement, the
    metric's method takes no error path: it prints nothing and returns a
    series whose labels are those of the rows it read. *)
Theorem validated_metric_computes (fm : fill_method) (m : Metric)
    (self : FinancialMetricsCalculator) (out : list string) :
  (∀ k label, (k, label) ∈ required m →
     (validate_financial_data (statement k self) [label]).1 = true) →
  ∃ a b r,
    read_row (left_row m) self = Returns a
    ∧ read_row (right_row m) self = Returns b
    ∧ calculate fm m self out = (Returns r, out)
    ∧ ∀ p, p ∈ r.*1 ↔ p ∈ a.*1 ∨ p ∈ b.*1.
Proof.
  intros Hval.
  assert (Hrow : ∀ r, r ∈ required m → ∃ s, read_row r self = Returns s).
  { intros [k label] Hr. unfold read_row. simpl. rewrite loc_decide.
    rewrite decide_True by (by apply validate_single_row, Hval). by eexists. }
  destruct (Hrow (left_row m)) as [a Ha]; [by left|].
  destruct (Hrow (right_row m)) as [b Hb]; [by right; left|].
  destruct (calculate_cells fm m self a b Ha Hb) as (Hpr & Hidx & _).
  exists a, b, (series_of fm m self). split; [done|]. split; [done|].
  split; [|done]. by rewrite calculate_run, Hpr, app_nil_r.
Qed.

Lemma validated_metric_computes_witness :
  (∀ k label, (k, label) ∈ required GrossMargin →
     (validate_financial_data (statement k calc_newest_first) [label]).1 = true)
  ∧ ∃ r, calculate Pad GrossMargin calc_newest_first [] = (Returns r, []).
Proof.
  assert (H : ∀ k label, (k, label) ∈ required GrossMargin →
     (validate_financial_data (statement k calc_newest_first) [label]).1 = true).
  { intros k label Hr. unfold required in Hr.
    repeat (apply elem_of_cons in Hr as [Hr|Hr]; [by inversion Hr|]).
    by apply elem_of_nil in Hr. }
  split; [exact H|].
  destruct (validated_metric_computes Pad GrossMargin calc_newest_first [] H)
    as (a & b & r & _ & _ & Hrun & _).
  exists r. exact Hrun.
Defined.

(** ** Statements with different periods *)

(** X3.  ROE and ROA divide a row of the income statement by a row of the
    balance sheet.  A period that only one of the two statements has is
    still a label of the result, with an undefined value; a period that
    both have gets net income over the balance-sheet cell times 100. *)
Theorem return_ratio_alignment (fm : fill_method) (m : Metric)
    (self : FinancialMetricsCalculator) (net_income denominator : list (Z * num))
    (out : list string) :
  m = ROE ∨ m = ROA →
  read_row (left_row m) self = Returns net_income →
  read_row (right_row m) self = Returns denominator →
  ∃ r, calculate fm m self out = (Returns r, out)
    ∧ (∀ p, p ∈ net_income.*1 → p ∉ denominator.*1 → assoc p r = Some NaN)
    ∧ (∀ p, p ∉ net_income.*1 → p ∈ denominator.*1 → assoc p r = Some NaN)
    ∧ (∀ p, p ∈ net_income.*1 → p ∈ denominator.*1 →
         assoc p r = Some (num_mul (num_div (get net_income p) (get denominator p))
                                   (num_of_Z 100))).
Proof.
  intros Hm Ha Hb.
  destruct (calculate_cells fm m self _ _ Ha Hb) as (Hpr & _ & Hcell).
  exists (series_of fm m self). split.
  { by rewrite calculate_run, Hpr, app_nil_r. }
  assert (Hop : ∀ p, p ∈ net_income.*1 ∨ p ∈ denominator.*1 →
            assoc p (series_of fm m self)
            = Some (num_mul (num_div (get net_income p) (get denominator p))
                            (num_of_Z 100))).
  { intros p Hp. rewrite (Hcell p Hp). by destruct Hm as [-> | ->]. }
  split; [|split].
  - intros p Hp Hn. rewrite Hop by by left.
    by rewrite (get_absent denominator), num_div_nan_r.
  - intros p Hn Hp. rewrite Hop by by right. by rewrite (get_absent net_income).
  - intros p Hp _. apply Hop. by left.
Qed.

Lemma return_ratio_alignment_witness :
  (ROE = ROE ∨ ROE = ROA)
  ∧ read_row (left_row ROE) calc_misaligned = Returns [(2023, qz 12); (2022, qz 10)]
  ∧ read_row (right_row ROE) calc_misaligned = Returns [(2024, qz 500); (2023, qz 400)]
  ∧ ∃ r, calculate Pad ROE calc_misaligned [] = (Returns r, [])
      ∧ assoc 2024 r = Some NaN ∧ assoc 2022 r = Some NaN.
Proof.
  assert (H1 : read_row (left_row ROE) calc_misaligned
               = Returns [(2023, qz 12); (2022, qz 10)]) by reflexivity.
  assert (H2 : read_row (right_row ROE) calc_misaligned
               = Returns [(2024, qz 500); (2023, qz 400)]) by reflexivity.
  split; [by left|]. split; [exact H1|]. split; [exact H2|].
  destruct (return_ratio_alignment Pad ROE calc_misaligned _ _ [] (or_introl eq_refl) H1 H2)
    as (r & Hrun & Honly_inc & Honly_bs & _).
  exists r. split; [exact Hrun|]. split.
  - apply Honly_bs; apply (bool_decide_unpack _); by vm_compute.
  - apply Honly_inc; apply (bool_decide_unpack _); by vm_compute.
Defined.

(** ** What the methods print *)

Lemma printed_error_lines (fm : fill_method) (m : Metric)
    (self : FinancialMetricsCalculator) :
  printed (calculate fm m self) = error_lines m self.
Proof.
  unfold error_lines, first_missing, has_row.
  destruct m; unfold_methods; simpl; rewrite !loc_decide;
    rewrite ?filter_cons, ?filter_nil; simpl;
    repeat case_decide; simpl; try done; tauto.
Qed.

Lemma printed_all_metrics (fm : fill_method) (self : FinancialMetricsCalculator) :
  printed (calculate_all_metrics fm self)
  = concat ((λ m, error_lines m self) <$> all_metrics).
Proof.
  unfold printed at 1. unfold calculate_all_metrics, mbind, Py_bind.
  change (calculate_revenue_growth fm self) with (calculate fm RevenueGrowth self).
  change (calculate_gross_margin self) with (calculate fm GrossMargin self).
  change (calculate_operating_margin self) with (calculate fm OperatingMargin self).
  change (calculate_net_margin self) with (calculate fm NetMargin self).
  change (calculate_free_cash_flow self) with (calculate fm FreeCashFlow self).
  change (calculate_current_ratio self) with (calculate fm CurrentRatio self).
  change (calculate_debt_to_equity self) with (calculate fm DebtToEquity self).
  change (calculate_roe self) with (calculate fm ROE self).
  change (calculate_roa self) with (calculate fm ROA self).
  repeat (rewrite (calculate_run fm _ self); cbv beta iota).
  unfold mret, Py_ret. cbn [snd app all_metrics fmap list_fmap concat].
  rewrite !printed_error_lines. by rewrite app_nil_r, <-!app_assoc.
Qed.

Lemma error_lines_nil (m : Metric) (self : FinancialMetricsCalculator) :
  error_lines m self = [] ↔ ∀ r, r ∈ required m → has_row self r.
Proof.
  unfold error_lines, first_missing.
  assert (Hreq : ∀ r, r ∈ required m ↔ r ∈ read_order m).
  { intros r. unfold required. destruct m; simpl;
      rewrite !elem_of_cons, elem_of_nil; tauto. }
  destruct (filter _ (read_order m)) as [|r0 l] eqn:Hf; simpl.
  - split; [|done]. intros _ r Hr.
    destruct (decide (has_row self r)) as [|Hn]; [done|].
    by destruct (filter_nil_not_elem_of _ _ r Hf Hn); apply Hreq.
  - split; [done|]. intros Hall.
    assert (Hin : r0 ∈ filter (λ r, ¬ has_row self r) (read_order m))
      by (rewrite Hf; left).
    apply list_elem_of_filter in Hin as [Hn Hin]. destruct Hn. by apply Hall, Hreq.
Qed.

(** X4.  [calculate_all_metrics] prints the error lines of the nine
    methods in metric order.  A method prints nothing when its rows are
    there and otherwise one line, which names the first missing row in the
    order the method reads them (the margins read the revenue first).
    So the run is silent exactly when no metric lacks a row. *)
Theorem calculate_all_metrics_log (fm : fill_method)
    (self : FinancialMetricsCalculator) (out : list string) :
  ∃ df,
    calculate_all_metrics fm self out
    = (Returns df, out ++ concat ((λ m, error_lines m self) <$> all_metrics))
    ∧ (∀ m (line_out : list string),
         calculate fm m self line_out
         = (Returns (series_of fm m self), line_out ++ error_lines m self))
    ∧ (concat ((λ m, error_lines m self) <$> all_metrics) = []
       ↔ ∀ m r, r ∈ required m → has_row self r).
Proof.
  exists (metrics_table fm self). split; [|split].
  - by rewrite calculate_all_metrics_run, <-metrics_table_eq, printed_all_metrics.
  - intros m line_out. by rewrite calculate_run, printed_error_lines.
  - split.
    + intros Hnil m r. apply error_lines_nil.
      assert (Hall : Forall (λ l : list string, l = [])
                       ((λ m, error_lines m self) <$> all_metrics)).
      { apply Forall_forall. intros l Hl.
        destruct l as [|x l]; [done|].
        assert (Hx : x ∈ concat ((λ m, error_lines m self) <$> all_metrics)).
        { apply elem_of_concat. exists (x :: l). split; [done | left]. }
        rewrite Hnil in Hx. by apply elem_of_nil in Hx. }
      rewrite Forall_fmap, Forall_forall in Hall. apply Hall.
      destruct m; unfold all_metrics; repeat first [by left | right].
    + intros Hall. cbn [all_metrics fmap list_fmap concat].
      by rewrite !(proj2 (error_lines_nil _ self)) by (intros r; apply Hall).
Qed.

(** ** From the metrics table to the comparison table *)

Lemma comparison_row_cells (fm : fill_method) (c : string * CompanyData)
    (r : Z * list num) (rest : list (Z * list num)) :
  rows (metrics_table fm (calculator_of c.2)) = r :: rest →
  comparison_row fm c
  = ((λ m, PNum (get (series_of fm m (calculator_of c.2)) r.1)) <$> all_metrics)
    ++ [PStr c.1].
Proof.
  intros Hr. unfold comparison_row, first_row. rewrite Hr. simpl.
  rewrite (metrics_table_row_cells fm (calculator_of c.2) r) by (rewrite Hr; left).
  done.
Qed.

Lemma comparison_table_NoDup_index (fm : fill_method) (cs : list (string * CompanyData)) :
  NoDup (rows (comparison_table fm cs)).*1.
Proof.
  unfold comparison_table. simpl. apply NoDup_alt. intros i j k Hi Hj.
  rewrite list_lookup_fmap, list_lookup_imap in Hi, Hj.
  destruct (filter (has_metrics fm) cs !! i); simplify_eq/=.
  destruct (filter (has_metrics fm) cs !! j); by simplify_eq/=.
Qed.

(** X5.  Each row of the comparison table is taken at one period: the
    most recent period that any of the company's nine series has.  The cell
    under a metric is that metric's value at this period, so a metric whose
    series does not reach the period shows as undefined even if it has
    older values; the last cell is the company identifier. *)
Theorem comparison_cells_at_latest_period (fm : fill_method)
    (cs : list (string * CompanyData)) (out : list string) (i : nat)
    (c : string * CompanyData) :
  filter (has_metrics fm) cs !! i = Some c →
  ∃ df out' latest,
    create_comparison_dataframe fm cs out = (Returns df, out')
    ∧ (∃ m, latest ∈ (series_of fm m (calculator_of c.2)).*1)
    ∧ (∀ m p, p ∈ (series_of fm m (calculator_of c.2)).*1 → p ≤ latest)
    ∧ (∀ m, comparison_cell df i (metric_name m)
            = Some (PNum (get (series_of fm m (calculator_of c.2)) latest)))
    ∧ (∀ m, latest ∉ (series_of fm m (calculator_of c.2)).*1 →
            comparison_cell df i (metric_name m) = Some (PNum NaN))
    ∧ comparison_cell df i "Company" = Some (PStr c.1).
Proof.
  intros Hc. destruct (create_comparison_dataframe_run fm cs out) as [out' Hrun].
  assert (Hm : has_metrics fm c).
  { by apply list_elem_of_lookup_2, list_elem_of_filter in Hc as [? _]. }
  unfold has_metrics in Hm.
  destruct (rows (metrics_table fm (calculator_of c.2))) as [|r rest] eqn:Hr; [done|].
  exists (comparison_table fm cs), out', r.1. split; [done|].
  assert (Hin : r.1 ∈ index (metrics_table fm (calculator_of c.2))).
  { unfold index. rewrite Hr. left. }
  split; [by apply metrics_table_index_elem|].
  split.
  { intros m p Hp. eapply metrics_table_head_latest; [done|].
    apply metrics_table_index_elem. by exists m. }
  assert (Hrow : assoc i (rows (comparison_table fm cs)) = Some (comparison_row fm c)).
  { apply (assoc_lookup_NoDup i); [apply comparison_table_NoDup_index|].
    by apply comparison_table_rows_lookup. }
  assert (Hcols : columns (comparison_table fm cs) = comparison_columns).
  { unfold comparison_table. simpl.
    destruct (filter (has_metrics fm) cs); [by rewrite lookup_nil in Hc | done]. }
  assert (Hcell : ∀ m, comparison_cell (comparison_table fm cs) i (metric_name m)
            = Some (PNum (get (series_of fm m (calculator_of c.2)) r.1))).
  { intros m. unfold comparison_cell.
    rewrite Hrow, Hcols, (comparison_row_cells fm c r rest Hr). by destruct m. }
  split; [done|]. split.
  - intros m Hn. by rewrite Hcell, get_absent.
  - unfold comparison_cell.
    by rewrite Hrow, Hcols, (comparison_row_cells fm c r rest Hr).
Qed.

Lemma comparison_cells_at_latest_period_witness :
  filter (has_metrics Pad) companies_sample !! 1%nat = Some ("BBB", company_B)
  ∧ ∃ df out',
      create_comparison_dataframe Pad companies_sample [] = (Returns df, out')
      ∧ comparison_cell df 1 "Company" = Some (PStr "BBB").
Proof.
  assert (H : filter (has_metrics Pad) companies_sample !! 1%nat
              = Some ("BBB", company_B)) by (by vm_compute).
  split; [exact H|].
  destruct (comparison_cells_at_latest_period Pad companies_sample [] 1
              ("BBB", company_B) H) as (df & out' & latest & Hrun & _ & _ & _ & _ & Hco).
  exists df, out'. split; [exact Hrun | exact Hco].
Defined.

(** ** Charts *)

Lemma series_sort_index_perm (s : list (Z * num)) : series_sort_index s ≡ₚ s.
Proof. apply merge_sort_Permutation. Qed.

Lemma series_sort_index_sorted (s : list (Z * num)) :
  StronglySorted Z.le (series_sort_index s).*1.
Proof.
  unfold series_sort_index.
  pose proof (StronglySorted_merge_sort (@index_le num) s) as HS.
  induction HS as [|r l _ IH Hr]; simpl; constructor; [done|].
  apply Forall_fmap. by eapply Forall_impl.
Qed.


Lemma scatter_zip (name : string) (s : list (Z * num)) :
  zip (trace_x (scatter name s)) (trace_y (scatter name s)) = s.
Proof. apply zip_fst_snd. Qed.

Lemma getitem_assoc {V} (d : list (string * V)) (k : string) :
  getitem d k = match assoc k d with Some v => Returns v | None => Raises (KeyError k) end.
Proof. done. Qed.

Lemma plot_revenue_loop_run (cd : list (string * CompanyData)) (tickers : list string)
    (fig : list Trace) (out : list string) :
  ∃ lines,
    plot_revenue_loop cd tickers fig out
    = (Returns (fig ++ omap (λ t, scatter t ∘ series_sort_index <$> revenue_row cd t) tickers),
       out ++ lines)
    ∧ length lines = length (filter (λ t, revenue_row cd t = None) tickers).
Proof.
  revert fig out. induction tickers as [|t tickers IH]; intros fig out.
  - exists []. by rewrite !app_nil_r.
  - cbn [plot_revenue_loop omap list_omap].
    unfold mbind, Py_bind, try_except, lift, print, mret, Py_ret, revenue_row.
    rewrite getitem_assoc.
    destruct (assoc t cd) as [data|] eqn:Hd; cbn [fst snd].
    + destruct (loc (data_income_statement data) "Total Revenue") as [rev|e] eqn:Hl;
        cbn [fmap option_fmap option_map].
      * rewrite filter_cons_False by (unfold revenue_row; rewrite Hd, Hl; by intros ?).
        destruct (IH (fig ++ [scatter t (series_sort_index rev)]) out) as (lines & -> & Hlen).
        exists lines. by rewrite <-app_assoc.
      * rewrite filter_cons_True by (unfold revenue_row; by rewrite Hd, Hl).
        destruct (IH fig (out ++ ["Error plotting revenue for " +:+ t +:+ ": " +:+ exn_str e]))
          as (lines & -> & Hlen).
        eexists (_ :: lines). rewrite <-app_assoc. simpl. by rewrite Hlen.
    + rewrite filter_cons_True by (unfold revenue_row; by rewrite Hd).
      destruct (IH fig (out ++ ["Error plotting revenue for " +:+ t +:+ ": "
                                +:+ exn_str (KeyError t)]))
        as (lines & -> & Hlen).
      eexists (_ :: lines). rewrite <-app_assoc. simpl. by rewrite Hlen.
Qed.

(** X6.  [plot_revenue_trend] never raises.  It draws one trace per
    requested ticker that is in the data and has a "Total Revenue" row, in
    the order requested and under the ticker's name; every other ticker
    costs one printed line and nothing else.  A trace holds exactly the
    (period, revenue) pairs of the row, reordered so that the periods
    ascend, whatever order the statement stores them in. *)
Theorem plot_revenue_trend_traces (cd : list (string * CompanyData))
    (tickers : list string) (out : list string) :
  ∃ fig lines,
    plot_revenue_trend cd tickers out = (Returns fig, out ++ lines)
    ∧ length lines = length (filter (λ t, revenue_row cd t = None) tickers)
    ∧ trace_name <$> fig_traces fig = filter (λ t, is_Some (revenue_row cd t)) tickers
    ∧ ∀ tr, tr ∈ fig_traces fig →
        ∃ revenue,
          revenue_row cd (trace_name tr) = Some revenue
          ∧ zip (trace_x tr) (trace_y tr) ≡ₚ revenue
          ∧ StronglySorted Z.le (trace_x tr).
Proof.
  unfold plot_revenue_trend, mbind, Py_bind.
  destruct (plot_revenue_loop_run cd tickers [] out) as (lines & -> & Hlen).
  eexists _, lines. split; [done|]. split; [done|]. simpl. split.
  - clear. induction tickers as [|t tickers IH]; [done|]. cbn [omap list_omap].
    destruct (revenue_row cd t) as [rev|] eqn:Hr; cbn [fmap option_fmap option_map].
    + rewrite fmap_cons, filter_cons_True by (by rewrite Hr). by rewrite IH.
    + rewrite filter_cons_False by (rewrite Hr; by intros [? ?]). done.
  - intros tr (t & _ & Ht)%list_elem_of_omap.
    destruct (revenue_row cd t) as [rev|] eqn:Hr; simplify_eq/=.
    exists rev. split; [done|]. split.
    + rewrite zip_fst_snd. apply series_sort_index_perm.
    + apply series_sort_index_sorted.
Qed.

Lemma engine_fcf_loc (cd : list (string * CompanyData)) (t : string) :
  engine_fcf cd t
  = match assoc t cd with
    | Some data =>
        match loc (data_cash_flow data) "Operating Cash Flow",
              loc (data_cash_flow data) "Capital Expenditure" with
        | Returns a, Returns b => Some (binop num_add a b)
        | _, _ => None
        end
    | None => None
    end.
Proof.
  unfold engine_fcf. destruct (assoc t cd) as [data|]; [|done].
  unfold_methods. unfold calculator_of. simpl.
  destruct (loc (data_cash_flow data) "Operating Cash Flow"); simpl; [|done].
  by destruct (loc (data_cash_flow data) "Capital Expenditure").
Qed.

Lemma plot_fcf_loop_run (cd : list (string * CompanyData)) (tickers : list string)
    (fig : list Trace) (out : list string) :
  ∃ out',
    plot_fcf_loop cd tickers fig out
    = (Returns (fig ++ omap (λ t, scatter t ∘ series_sort_index <$> engine_fcf cd t) tickers),
       out').
Proof.
  revert fig out. induction tickers as [|t tickers IH]; intros fig out.
  - exists out. simpl. by rewrite app_nil_r.
  - cbn [plot_fcf_loop omap list_omap].
    unfold mbind, Py_bind, try_except, lift, print, mret, Py_ret.
    rewrite engine_fcf_loc, getitem_assoc.
    destruct (assoc t cd) as [data|]; cbn [fst snd]; [|apply IH].
    destruct (loc (data_cash_flow data) "Operating Cash Flow") as [a|e1];
      cbn [fmap option_fmap option_map]; [|apply IH].
    destruct (loc (data_cash_flow data) "Capital Expenditure") as [b|e2];
      cbn [fmap option_fmap option_map]; [|apply IH].
    edestruct IH as [out' ->]. exists out'. by rewrite <-app_assoc.
Qed.

(** X7.  [plot_fcf_trend] never raises, and the chart shows what the engine
    computes: the trace of a ticker is the series that
    [calculate_free_cash_flow] returns for that company, with the periods
    in ascending order; a ticker that is not in the data, or for which the
    engine reports an error, has no trace. *)
Theorem plot_fcf_trend_matches_engine (cd : list (string * CompanyData))
    (tickers : list string) (out : list string) :
  ∃ fig out',
    plot_fcf_trend cd tickers out = (Returns fig, out')
    ∧ fig_traces fig
      = omap (λ t, scatter t ∘ series_sort_index <$> engine_fcf cd t) tickers
    ∧ ∀ tr, tr ∈ fig_traces fig →
        ∃ fcf, engine_fcf cd (trace_name tr) = Some fcf
               ∧ zip (trace_x tr) (trace_y tr) ≡ₚ fcf
               ∧ StronglySorted Z.le (trace_x tr).
Proof.
  unfold plot_fcf_trend, mbind, Py_bind.
  destruct (plot_fcf_loop_run cd tickers [] out) as (out' & ->).
  eexists _, out'. split; [done|]. split; [done|]. simpl.
  intros tr (t & _ & Ht)%list_elem_of_omap.
  destruct (engine_fcf cd t) as [fcf|] eqn:Hr; simplify_eq/=.
  exists fcf. split; [done|]. split.
  - rewrite zip_fst_snd. apply series_sort_index_perm.
  - apply series_sort_index_sorted.
Qed.






(** ** The cache *)









(** ** Ingestion *)

Section Ingestion.
Context {D : Type}.
Variable yf_frame : string → string → result Statement.
Variable yf_info : string → result (list (string * pyval)).

Lemma get_all_statements_run (self : FinancialDataExtractor) (quarterly : bool)
    (w : Sys D) :
  ∃ lines,
    get_all_statements yf_frame yf_info self quarterly w
    = (Ok (delivered yf_frame yf_info (ticker self) quarterly), printed_more w lines)
    ∧ length lines = failed_requests yf_frame yf_info (ticker self) quarterly.
Proof.
  pose (err_line := λ (A : Type) (what : string) (r : result A),
          match r with
          | Ok _ => []
          | Err e => ["Error fetching " +:+ what +:+ " for " +:+ ticker self +:+ ": "
                      +:+ exception_str e]
          end).
  exists (err_line _ "income statement" (yf_frame (ticker self) (attr_name Income quarterly))
          ++ err_line _ "balance sheet" (yf_frame (ticker self) (attr_name Balance quarterly))
          ++ err_line _ "cash flow" (yf_frame (ticker self) (attr_name CashFlow quarterly))
          ++ err_line _ "company info" (yf_info (ticker self))).
  unfold get_all_statements, get_income_statement, get_balance_sheet, get_cash_flow,
    get_company_info, delivered, failed_requests, mbind, IO_bind, io_try_except,
    io_lift, io_print, mret, IO_ret, printed_more.
  rewrite !filter_cons, filter_nil.
  destruct quarterly; cbn [attr_name];
    repeat match goal with
           | |- context [yf_frame ?t ?a] => destruct (yf_frame t a)
           | |- context [yf_info ?t] => destruct (yf_info t)
           end;
    simpl; rewrite <-?app_assoc, ?app_nil_r; split; try reflexivity; by destruct w.
Qed.




(** X11.  [get_all_statements] never raises.  Each statement arrives as
    yfinance gave it, and a request that yfinance answers with an
    exception, of whatever class, arrives as an empty frame (an empty dict
    for the company information); one line is printed per failed request;
    the files and the clock are not touched. *)
Theorem get_all_statements_never_raises (self : FinancialDataExtractor)
    (quarterly : bool) (w : Sys D) :
  ∃ fd lines,
    get_all_statements yf_frame yf_info self quarterly w = (Ok fd, printed_more w lines)
    ∧ (∀ k, fetched_statement k fd
            = frame_or_empty (yf_frame (ticker self) (attr_name k quarterly)))
    ∧ (∀ k e, yf_frame (ticker self) (attr_name k quarterly) = Err e →
              fetched_statement k fd = empty_frame)
    ∧ (∀ e, yf_info (ticker self) = Err e → company_info fd = [])
    ∧ length lines = failed_requests yf_frame yf_info (ticker self) quarterly.
Proof.
  destruct (get_all_statements_run self quarterly w) as (lines & Hrun & Hlen).
  eexists _, lines. split; [done|].
  assert (Hk : ∀ k, fetched_statement k (delivered yf_frame yf_info (ticker self) quarterly)
                    = frame_or_empty (yf_frame (ticker self) (attr_name k quarterly)))
    by by intros [].
  split; [done|]. split; [|split; [|done]].
  - intros k e He. by rewrite Hk, He.
  - intros e He. unfold delivered. cbn [company_info]. by rewrite He.
Qed.


End Ingestion.





(** ** The loader *)

Lemma string_length_app (s t : string) :
  String.length (s +:+ t) = (String.length s + String.length t)%nat.
Proof. induction s as [|c s IH]; simpl; [done | by rewrite IH]. Qed.

Lemma string_app_inv_tail (s1 s2 t1 t2 : string) :
  String.length t1 = String.length t2 → s1 +:+ t1 = s2 +:+ t2 → t1 = t2.
Proof.
  revert s2. induction s1 as [|c s1 IH]; intros [|c' s2] Hlen E.
  - done.
  - apply (f_equal String.length) in E. rewrite !string_length_app in E.
    simpl in E. exfalso. lia.
  - apply (f_equal String.length) in E. rewrite !string_length_app in E.
    simpl in E. exfalso. lia.
  - injection E as _ E. by apply (IH s2).
Qed.

(** X14.  The annual and the quarterly request never share a cache file,
    whatever the tickers. *)
Theorem cache_file_name_period (tickers tickers' : list string) :
  cache_file_name tickers true ≠ cache_file_name tickers' false.
Proof.
  unfold cache_file_name. intros E.
  apply (inj (String.app _)) in E.
  apply string_app_inv_tail in E; [discriminate E | done].
Qed.



(** ** The health score *)

Lemma normalized_range (cat : string) (x : num) (v : num) :
  normalized cat (PNum x) = Ok v → score_in_range cat v.
Proof.
  unfold normalized, py_min, py_max. case_decide as Hc; intros [= <-].
  - destruct x as [q| | |]; simpl; [|by split|done|done].
    case_bool_decide as Hq; simpl; (split; [|by intros ?]); [done|].
    by apply Qcnot_lt_le.
  - destruct x as [q| | |]; simpl; [|by split|by split|done].
    case_bool_decide as H0; simpl; [by split|].
    apply Qcnot_lt_le in H0. case_bool_decide as H100; simpl; [by split|].
    split; [by apply Qcnot_lt_le | done].
Qed.

Lemma health_values_spec (cols : list string) (row : list (string * pyval))
    (cats : list string) (values res : list num) :
  health_values cols row cats values = Ok res →
  ∃ new, res = values ++ new
    ∧ Forall2 (λ cat v, if decide (cat ∈ cols) then score_in_range cat v
                        else v = num_of_Z 0) cats new.
Proof.
  revert values. induction cats as [|cat cats IH]; intros values; cbn [health_values].
  - intros [= <-]. exists []. by rewrite app_nil_r.
  - destruct (decide (cat ∈ cols)) as [Hin|Hnin].
    + unfold mbind, result_bind.
      destruct (row_getitem row cat) as [val|]; [|done].
      destruct val as [x|s]; [|unfold normalized; by case_decide].
      destruct (normalized cat (PNum x)) as [v|] eqn:Hv; [|done].
      intros (new & -> & Hnew)%IH. exists (v :: new).
      split; [by rewrite <-app_assoc|]. constructor; [|done].
      rewrite decide_True by done. by eapply normalized_range.
    + intros (new & -> & Hnew)%IH. exists (num_of_Z 0 :: new).
      split; [by rewrite <-app_assoc|]. constructor; [|done].
      by rewrite decide_False.
Qed.

Lemma health_loop_spec (cols : list string) (rws : list (nat * list pyval))
    (fig res : list RadarTrace) :
  health_loop cols rws fig = Ok res →
  ∃ new, res = fig ++ new ∧ length new = length rws
    ∧ ∀ tr, tr ∈ new →
        radar_theta tr = categories
        ∧ Forall2 (λ cat v, if decide (cat ∈ cols) then score_in_range cat v
                            else v = num_of_Z 0) categories (radar_r tr).
Proof.
  revert fig. induction rws as [|[idx cells] rws IH]; intros fig; cbn [health_loop].
  - intros [= <-]. exists []. rewrite app_nil_r. split; [done|]. split; [done|].
    by intros tr ?%elem_of_nil.
  - unfold mbind, result_bind.
    destruct (health_values cols (zip cols cells) categories []) as [values|] eqn:Hv;
      [|done].
    destruct (row_getitem (zip cols cells) "Company") as [name|]; [|done].
    intros (new & -> & Hlen & Hnew)%IH.
    exists (mkRadar values categories name :: new).
    split; [by rewrite <-app_assoc|]. split; [simpl; by rewrite Hlen|].
    intros tr [->|Htr]%elem_of_cons; [|by apply Hnew].
    split; [done|]. simpl.
    by apply health_values_spec in Hv as (vs & -> & Hvs).
Qed.

(** X16.  When [plot_financial_health_score] returns, it has drawn one
    trace per row of the table, each with one score per category in the
    order of [categories].  A percentage score is undefined or lies between
    0 and 100; the current-ratio score is undefined or at most 100 but is
    not clamped from below, so it can be negative or minus infinity; a
    category that is not a column of the table scores 0. *)
Theorem health_scores_in_range (metrics_df : DataFrame nat string pyval)
    (traces : list RadarTrace) :
  plot_financial_health_score metrics_df = Ok traces →
  length traces = length (rows metrics_df)
  ∧ ∀ tr, tr ∈ traces →
      radar_theta tr = categories
      ∧ length (radar_r tr) = length categories
      ∧ ∀ (i : nat) cat v, categories !! i = Some cat → radar_r tr !! i = Some v →
          (cat ∈ columns metrics_df → score_in_range cat v)
          ∧ (cat ∉ columns metrics_df → v = num_of_Z 0).
Proof.
  intros (new & -> & Hlen & Hnew)%health_loop_spec. simpl.
  split; [done|]. intros tr Htr. destruct (Hnew tr Htr) as [Hth HF].
  split; [done|]. split; [exact (eq_sym (Forall2_length _ _ _ HF))|].
  intros i cat v Hc Hv.
  pose proof (Forall2_lookup_lr _ _ _ _ _ _ HF Hc Hv) as H. cbv beta in H.
  destruct (decide (cat ∈ columns metrics_df)); split; intros ?; done.
Qed.

Lemma comparison_row_health (fm : fill_method) (c : string * CompanyData) :
  has_metrics fm c →
  ∃ values,
    health_values comparison_columns (zip comparison_columns (comparison_row fm c))
      categories [] = Ok values
    ∧ row_getitem (zip comparison_columns (comparison_row fm c)) "Company"
      = Ok (PStr c.1).
Proof.
  unfold has_metrics. intros Hm.
  destruct (rows (metrics_table fm (calculator_of c.2))) as [|r rest] eqn:Hr; [done|].
  rewrite (comparison_row_cells fm c r rest Hr).
  eexists. split; reflexivity.
Qed.

Lemma health_loop_comparison (fm : fill_method) (l : list (string * CompanyData))
    (g : nat → nat) (fig : list RadarTrace) :
  (∀ c, c ∈ l → has_metrics fm c) →
  ∃ new,
    health_loop comparison_columns (imap (λ i c, (g i, comparison_row fm c)) l) fig
    = Ok (fig ++ new)
    ∧ radar_name <$> new = (λ c, PStr c.1) <$> l.
Proof.
  revert g fig. induction l as [|c l IH]; intros g fig Hall.
  - exists []. by rewrite app_nil_r.
  - rewrite imap_cons. cbn [health_loop]. unfold mbind, result_bind.
    destruct (comparison_row_health fm c) as (values & -> & ->); [apply Hall; left|].
    destruct (IH (g ∘ S) (fig ++ [mkRadar values categories (PStr c.1)]))
      as (new & Hrun & Hnames); [intros c' Hc'; apply Hall; by right|].
    exists (mkRadar values categories (PStr c.1) :: new). split.
    + rewrite <-app_assoc in Hrun. exact Hrun.
    + by rewrite !fmap_cons, Hnames.
Qed.

(** X17.  On the table that [create_comparison_dataframe] returns,
    [plot_financial_health_score] never raises: it draws one radar trace
    per row, named after the row's company, in the order of the rows. *)
Theorem health_score_of_comparison (fm : fill_method)
    (cs : list (string * CompanyData)) (out : list string) :
  ∃ df out' traces,
    create_comparison_dataframe fm cs out = (Returns df, out')
    ∧ plot_financial_health_score df = Ok traces
    ∧ radar_name <$> traces = (λ c, PStr c.1) <$> filter (has_metrics fm) cs.
Proof.
  destruct (create_comparison_dataframe_run fm cs out) as [out' Hrun].
  destruct (health_loop_comparison fm (filter (has_metrics fm) cs) id [])
    as (new & Hloop & Hnames).
  { by intros c [? _]%list_elem_of_filter. }
  exists (comparison_table fm cs), out', new. split; [done|]. split; [|done].
  unfold plot_financial_health_score, comparison_table. simpl.
  destruct (filter (has_metrics fm) cs) as [|c0 l0] eqn:Hf; [by injection Hloop as <-|].
  exact Hloop.
Qed.

Lemma health_scores_in_range_witness :
  plot_financial_health_score health_sample
    = Ok [mkRadar [qz 100; qz 0; qz 0; qz 0; qz (-50)] categories (PStr "AAA")]
  ∧ length [mkRadar [qz 100; qz 0; qz 0; qz 0; qz (-50)] categories (PStr "AAA")]
    = length (rows health_sample).
Proof.
  assert (H : plot_financial_health_score health_sample
              = Ok [mkRadar [qz 100; qz 0; qz 0; qz 0; qz (-50)] categories (PStr "AAA")])
    by by_computation.
  split; [exact H|].
  exact (proj1 (health_scores_in_range health_sample _ H)).
Defined.

(** X18.  When no company has a metrics row (in particular for no
    companies at all), [create_comparison_dataframe] returns the frame
    [pd.DataFrame()]: no rows and no columns either, not even "Company";
    the health-score chart of that frame has no traces. *)
Theorem comparison_of_nothing (fm : fill_method)
    (cs : list (string * CompanyData)) (out : list string) :
  (∀ c, c ∈ cs → ¬ has_metrics fm c) →
  ∃ out',
    create_comparison_dataframe fm cs out = (Returns empty_frame, out')
    ∧ plot_financial_health_score empty_frame = Ok [].
Proof.
  intros Hnone. destruct (create_comparison_dataframe_run fm cs out) as [out' Hrun].
  exists out'. split; [|done]. rewrite Hrun. do 2 f_equal.
  unfold comparison_table. by rewrite filter_none.
Qed.

Lemma comparison_of_nothing_witness :
  (∀ c, c ∈ [("CCC", company_C)] → ¬ has_metrics Pad c)
  ∧ ∃ out', create_comparison_dataframe Pad [("CCC", company_C)] []
            = (Returns empty_frame, out').
Proof.
  assert (H : ∀ c, c ∈ [("CCC", company_C)] → ¬ has_metrics Pad c).
  { intros c Hc. apply list_elem_of_singleton in Hc as ->.
    unfold has_metrics. intros Hne. apply Hne. by vm_compute. }
  split; [exact H|].
  destruct (comparison_of_nothing Pad [("CCC", company_C)] [] H) as (out' & Hrun & _).
  exists out'. exact Hrun.
Defined.
